(** * ProjectWebScraping: the price poll loop of [app_7.py]

    A shallow embedding of the scraper: the text primitives the extractor
    relies on ([str.strip], [str.replace], [int]), the part of a parsed
    document that [find], [find_all] and [get_text] observe, the SQLite
    table [prices] as the list of its rows, and the coroutine [main] as a
    program over the effects it performs (HTTP request, clock, database,
    Telegram, sleep, logging).  *)

From Stdlib Require Import String Ascii List ZArith Lia Bool Sorted.
From ExtLib Require Import Structures.Monad Structures.MonadExc.
Import ListNotations.
Import MonadNotation.

Set Warnings "-register-all".

Local Open Scope string_scope.
Local Open Scope Z_scope.

(** ** Python text primitives

    A [str] is modelled by a [string] whose characters are the code points
    0..255.  On that range the Unicode database has no decimal digit other
    than '0'..'9', and its white space is the set listed in
    [isspace]. *)

Module builtins.

(** [Py_UNICODE_ISSPACE]: the characters [str.strip()] removes. *)
Definition isspace (c : ascii) : bool :=
  let n := N_of_ascii c in
  ((9 <=? n) && (n <=? 13) || (28 <=? n) && (n <=? 32)
   || (n =? 133) || (n =? 160))%N.

(** The white space [int()] skips around a literal: [Py_ISSPACE] after the
    non-ASCII white space has been turned into blanks (the separators
    28..31 are left alone by that pass and are no [Py_ISSPACE]). *)
Definition int_isspace (c : ascii) : bool :=
  let n := N_of_ascii c in
  ((9 <=? n) && (n <=? 13) || (n =? 32) || (n =? 133) || (n =? 160))%N.

Definition isdigit (c : ascii) : bool :=
  let n := N_of_ascii c in ((48 <=? n) && (n <=? 57))%N.

Definition digit_value (c : ascii) : Z := Z.of_N (N_of_ascii c) - 48.

Fixpoint lstrip (s : string) : string :=
  match s with
  | String c s' => if isspace c then lstrip s' else s
  | EmptyString => EmptyString
  end.

Fixpoint rstrip (s : string) : string :=
  match s with
  | String c s' =>
      match rstrip s' with
      | EmptyString => if isspace c then EmptyString else String c EmptyString
      | t => String c t
      end
  | EmptyString => EmptyString
  end.

(** [s.strip()] *)
Definition strip (s : string) : string := rstrip (lstrip s).

(** [s.replace(old, '')] for a one-character [old]: every occurrence goes. *)
Fixpoint remove (old : ascii) (s : string) : string :=
  match s with
  | String c s' => if Ascii.eqb c old then remove old s' else String c (remove old s')
  | EmptyString => EmptyString
  end.

Fixpoint int_lstrip (s : string) : string :=
  match s with
  | String c s' => if int_isspace c then int_lstrip s' else s
  | EmptyString => EmptyString
  end.

Fixpoint all_int_space (s : string) : bool :=
  match s with
  | String c s' => int_isspace c && all_int_space s'
  | EmptyString => true
  end.

(** The scanning loop of [long_from_string_base]: digits with single
    underscores between them.  [prev_us] says that the previous character
    was an underscore; the result is the number of digits, their value and
    the rest of the text, or [None] for a doubled or a trailing
    underscore. *)
Fixpoint scan_digits (prev_us : bool) (digits : nat) (acc : Z) (s : string)
  : option (nat * Z * string) :=
  match s with
  | String c s' =>
      if isdigit c then scan_digits false (S digits) (10 * acc + digit_value c) s'
      else if Ascii.eqb c "_" then
             if prev_us then None else scan_digits true digits acc s'
      else if prev_us then None else Some (digits, acc, s)
  | EmptyString => if prev_us then None else Some (digits, acc, s)
  end.

(** [_PY_LONG_MAX_STR_DIGITS_THRESHOLD]: shorter literals are never
    refused by the digit limit. *)
Definition MAX_STR_DIGITS_THRESHOLD : nat := 640.

(** [s.startswith(c)] and [c in s] for a character [c]. *)
Definition startswith (s : string) (c : ascii) : bool :=
  match s with
  | String c' _ => Ascii.eqb c' c
  | EmptyString => false
  end.

Fixpoint contains (s : string) (c : ascii) : bool :=
  match s with
  | String c' s' => Ascii.eqb c' c || contains s' c
  | EmptyString => false
  end.

Definition tail (s : string) : string :=
  match s with
  | String _ s' => s'
  | EmptyString => EmptyString
  end.

(** The digits of a literal whose sign has been read. *)
Definition int_digits (max_str_digits : nat) (sign : Z) (s : string) : option Z :=
  if startswith s "_" then None
  else
    match scan_digits false 0 0 s with
    | Some (digits, v, rest) =>
        if Nat.eqb digits 0 then None
        else if negb (all_int_space rest) then None
        else if Nat.ltb MAX_STR_DIGITS_THRESHOLD digits
                && Nat.ltb 0 max_str_digits
                && Nat.ltb max_str_digits digits then None
        else Some (sign * v)
    | None => None
    end.

(** [int(s)] in base 10; [None] is [ValueError].  [max_str_digits] is
    [sys.get_int_max_str_digits()], 0 for no limit.  White space, an
    optional sign, the digits (no leading underscore), white space. *)
Definition int (max_str_digits : nat) (s : string) : option Z :=
  let s1 := int_lstrip s in
  if startswith s1 "+" then int_digits max_str_digits 1 (tail s1)
  else if startswith s1 "-" then int_digits max_str_digits (-1) (tail s1)
  else int_digits max_str_digits 1 s1.

End builtins.

(** ** The parsed document

    What [BeautifulSoup(html, 'html.parser')] builds, as far as the
    extractor looks at it: tags with their name, their [class] tokens and
    their children, and the text strings [get_text] collects.  Comments
    and the contents of [script] and [style] elements are left out of
    [get_text] by the library and are not represented.  *)

Module bs4.

Inductive PageElement : Type :=
| NavigableString (s : string)
| Tag (name : string) (class_ : list string) (contents : list PageElement).

Definition soup : Type := list PageElement.

(** [tag.descendants]: every element below [e], in document order. *)
Fixpoint descendants (e : PageElement) : list PageElement :=
  match e with
  | NavigableString _ => []
  | Tag _ _ contents =>
      (fix below (l : list PageElement) : list PageElement :=
         match l with
         | [] => []
         | c :: l' => c :: descendants c ++ below l'
         end) contents
  end.

(** The descendants of the document object itself. *)
Definition soup_descendants (doc : soup) : list PageElement :=
  flat_map (fun c => c :: descendants c) doc.

Definition string_in (x : string) (l : list string) : bool :=
  existsb (String.eqb x) l.

(** Does [e] match [(name, class_=cls)]: a tag of that name one of whose
    class tokens is [cls]. *)
Definition matches (name cls : string) (e : PageElement) : bool :=
  match e with
  | NavigableString _ => false
  | Tag n classes _ => String.eqb n name && string_in cls classes
  end.

(** [soup.find_all(name, class_=cls)] *)
Definition find_all (doc : soup) (name cls : string) : list PageElement :=
  filter (matches name cls) (soup_descendants doc).

(** [soup.find(name, class_=cls)]: the first match, or [None]. *)
Definition find (doc : soup) (name cls : string) : option PageElement :=
  match find_all doc name cls with
  | [] => None
  | e :: _ => Some e
  end.

(** The strings [e._all_strings(strip=True)] yields. *)
Definition stripped_strings (e : PageElement) : list string :=
  flat_map (fun d => match d with
                     | NavigableString s =>
                         match builtins.strip s with
                         | EmptyString => []
                         | t => [t]
                         end
                     | Tag _ _ _ => []
                     end) (descendants e).

(** [e.get_text(strip=True)]: the stripped strings joined by [''].
    A [NavigableString] yields itself, stripped. *)
Definition get_text_strip (e : PageElement) : string :=
  match e with
  | NavigableString s => builtins.strip s
  | Tag _ _ _ => String.concat "" (stripped_strings e)
  end.

End bs4.

Import bs4.

(** The product page reduced to the elements the extractor reads. *)
Definition example_page (title p0 p1 p2 : string) : soup :=
  [Tag "html" []
     [Tag "body" []
        [Tag "h1" ["ui-pdp-title"] [NavigableString title];
         Tag "div" ["ui-pdp-price"]
           [Tag "s" []
              [Tag "span" ["andes-money-amount__fraction"] [NavigableString p0]];
            Tag "span" ["andes-money-amount"; "ui-pdp-price__part"]
              [Tag "span" ["andes-money-amount__currency-symbol"] [NavigableString "R$"];
               Tag "span" ["andes-money-amount__fraction"] [NavigableString p1]];
            Tag "p" []
              [NavigableString " 10x ";
               Tag "span" ["andes-money-amount__fraction"] [NavigableString p2]]]]]].

(** ** Records, messages and exceptions *)

(** The dict [parse_page] returns, which is also one row of the table
    [prices] (the [id] column is the position of the row). *)
Record product_info : Type := {
  product_name : string;
  old_price : Z;
  new_price : Z;
  installment_price : Z;
  timestamp : string
}.

(** The two notification texts of [main], the f-strings of lines 131 and
    135, each kept as its template with the values of its holes: the new
    price for the first, [max_price] and [max_price_timestamp] for the
    second. *)
Inductive message : Type :=
| NovoPrecoMaiorDetectado (current_price : Z)
| MaiorPrecoRegistrado (max_price : option Z) (max_price_timestamp : option string).

(** The exceptions that travel through the program.  [OtherException]
    stands for every other subclass of [Exception] (a Telegram or network
    error, a database error); [KeyboardInterrupt] and [CancelledError]
    derive from [BaseException] only. *)
Inductive exn : Type :=
| AttributeError
| IndexError
| ValueError
| RequestException
| OtherException (name : string)
| KeyboardInterrupt
| CancelledError.

(** [isinstance(e, Exception)] *)
Definition is_Exception (e : exn) : bool :=
  match e with
  | KeyboardInterrupt | CancelledError => false
  | _ => true
  end.

Definition is_RequestException (e : exn) : bool :=
  match e with RequestException => true | _ => false end.

Definition is_KeyboardInterrupt (e : exn) : bool :=
  match e with KeyboardInterrupt => true | _ => false end.

(** [isinstance(e, (AttributeError, IndexError, ValueError))] *)
Definition is_parse_error (e : exn) : bool :=
  match e with
  | AttributeError | IndexError | ValueError => true
  | _ => false
  end.

(** The log lines, by their templates. *)
Inductive log_record : Type :=
| ErroAoBuscarPagina (e : exn)
| ErroAoParsear (e : exn)
| ErroAoEnviarMensagem (e : exn)
| Notificacao (m : message)
| DadosSalvos (info : product_info)
| ParandoExecucao.

(** [requests.Response], the two attributes used. *)
Record Response : Type := {
  status_code : Z;
  text : string
}.

(** ** Effects and programs *)

(** What a call into the outside world gives back. *)
Inductive outcome (X : Type) : Type :=
| Ok (x : X)
| Exc (e : exn).
Arguments Ok {X} x.
Arguments Exc {X} e.

(** The calls [main] and its helpers make, indexed by what they return. *)
Inductive effect : Type -> Type :=
| requests_get (url : string) : effect Response
| time_strftime (format : string) : effect string
| select_max_fetchone : effect (option (option Z * option string))
| to_sql_append (data : product_info) : effect unit
| bot_send_message (text : message) : effect unit
| asyncio_sleep (delay : Z) : effect unit
| logging_error (r : log_record) : effect unit
| logging_info (r : log_record) : effect unit
| conn_close : effect unit.

(** A program: it returns, raises, or performs a call and goes on with the
    outcome of the call. *)
Inductive prog (A : Type) : Type :=
| Ret (a : A)
| Raise (e : exn)
| Vis {X : Type} (op : effect X) (k : outcome X -> prog A).
Arguments Ret {A} a.
Arguments Raise {A} e.
Arguments Vis {A X} op k.

Fixpoint prog_bind {A B : Type} (p : prog A) (f : A -> prog B) : prog B :=
  match p with
  | Ret a => f a
  | Raise e => Raise e
  | Vis op k => Vis op (fun r => prog_bind (k r) f)
  end.

(** [try: p except E as e: h e] with every exception handed to [h]; a
    handler for some classes re-raises the others. *)
Fixpoint try_except {A : Type} (p : prog A) (h : exn -> prog A) : prog A :=
  match p with
  | Ret a => Ret a
  | Raise e => h e
  | Vis op k => Vis op (fun r => try_except (k r) h)
  end.

#[global] Instance Monad_prog : Monad prog :=
  {| ret := @Ret; bind := @prog_bind |}.

#[global] Instance MonadExc_prog : MonadExc exn prog :=
  {| raise := @Raise; catch := @try_except |}.

(** Perform one call: its value, or its exception raised here. *)
Definition call {X : Type} (op : effect X) : prog X :=
  Vis op (fun r => match r with Ok x => Ret x | Exc e => Raise e end).

(** [try: p finally: f] *)
Definition try_finally {A : Type} (p : prog A) (f : prog unit) : prog A :=
  prog_bind (try_except p (fun e => prog_bind f (fun _ => Raise e)))
            (fun a => prog_bind f (fun _ => Ret a)).

(** ** The program *)

(** What the interpreter and its libraries contribute:
    [BeautifulSoup(html, 'html.parser')] as a function from the page text
    to the document, and the digit limit of [int].  The function stands
    for the parser on the texts it reads; a text it rejects is taken up
    by [parse_page_markup] below. *)
Class Runtime : Type := {
  BeautifulSoup : string -> soup;
  int_max_str_digits : nat
}.

Definition url : string :=
  "https://www.mercadolivre.com.br/apple-iphone-16-pro-1-tb-titnio-preto-distribuidor-autorizado/p/MLB1040287851#polycard_client=search-nordic&wid=MLB5054621110&sid=search&searchVariation=MLB1040287851&position=6&search_layout=stack&type=product&tracking_id=92c2ddf6-f70e-475b-b41e-fe2742459774".

Local Open Scope monad_scope.

(** [response.raise_for_status()]: [HTTPError], a [RequestException], for
    a 4xx or 5xx status. *)
Definition raise_for_status (response : Response) : prog unit :=
  if (400 <=? status_code response) && (status_code response <? 600)
  then raise RequestException
  else ret tt.

Definition fetch_page : prog (option string) :=
  catch
    (response <- call (requests_get url) ;;
     raise_for_status response ;;
     ret (Some (text response)))
    (fun e =>
       if is_RequestException e
       then call (logging_error (ErroAoBuscarPagina e)) ;; ret None
       else raise e).

(** [x.get_text(strip=True)] where [x] may be [None]. *)
Definition get_text_of (x : option PageElement) : prog string :=
  match x with
  | Some e => ret (get_text_strip e)
  | None => raise AttributeError
  end.

(** [l[i]] *)
Definition getitem (l : list PageElement) (i : nat) : prog PageElement :=
  match nth_error l i with
  | Some e => ret e
  | None => raise IndexError
  end.

(** [int(s)] *)
Definition int_of `{Runtime} (s : string) : prog Z :=
  match builtins.int int_max_str_digits s with
  | Some z => ret z
  | None => raise ValueError
  end.

Definition parse_page `{Runtime} (html : string) : prog (option product_info) :=
  catch
    (let soup := BeautifulSoup html in
     product_name <- get_text_of (find soup "h1" "ui-pdp-title") ;;
     let prices := find_all soup "span" "andes-money-amount__fraction" in
     p0 <- getitem prices 0 ;;
     old_price <- int_of (builtins.remove "." (get_text_strip p0)) ;;
     p1 <- getitem prices 1 ;;
     new_price <- int_of (builtins.remove "." (get_text_strip p1)) ;;
     p2 <- getitem prices 2 ;;
     installment_price <- int_of (builtins.remove "." (get_text_strip p2)) ;;
     timestamp <- call (time_strftime "%Y-%m-%d %H:%M:%S") ;;
     ret (Some {| product_name := product_name;
                  old_price := old_price;
                  new_price := new_price;
                  installment_price := installment_price;
                  timestamp := timestamp |}))
    (fun e =>
       if is_parse_error e
       then call (logging_error (ErroAoParsear e)) ;; ret None
       else raise e).

(** [if data:] holds for every dict [parse_page] builds. *)
Definition save_to_database (data : option product_info) : prog unit :=
  match data with
  | Some d => call (to_sql_append d)
  | None => ret tt
  end.

Definition get_max_price : prog (option Z * option string) :=
  result <- call select_max_fetchone ;;
  match result with
  | Some (Some m, ts) => ret (Some m, ts)
  | _ => ret (None, None)
  end.

Definition send_telegram_message (text : message) : prog unit :=
  catch
    (call (bot_send_message text))
    (fun e =>
       if is_Exception e
       then call (logging_error (ErroAoEnviarMensagem e))
       else raise e).

(** [max_price is None or current_price > max_price] *)
Definition is_new_max (max_price : option Z) (current_price : Z) : bool :=
  match max_price with
  | None => true
  | Some m => current_price >? m
  end.

(** One turn of the [while True] of [main]; [continue] ends the turn. *)
Definition loop_body `{Runtime} : prog unit :=
  page_content <- fetch_page ;;
  match page_content with
  | None | Some EmptyString => call (asyncio_sleep 60)
  | Some html =>
      product_info <- parse_page html ;;
      match product_info with
      | None => call (asyncio_sleep 60)
      | Some info =>
          let current_price := new_price info in
          '(max_price, max_price_timestamp) <- get_max_price ;;
          (if is_new_max max_price current_price
           then
             let message := NovoPrecoMaiorDetectado current_price in
             call (logging_info (Notificacao message)) ;;
             send_telegram_message message
           else
             let message := MaiorPrecoRegistrado max_price max_price_timestamp in
             call (logging_info (Notificacao message)) ;;
             send_telegram_message message) ;;
          save_to_database (Some info) ;;
          call (logging_info (DadosSalvos info)) ;;
          call (asyncio_sleep 60)
      end
  end.

(** ** The table [prices] *)

(** The scan behind [MAX(new_price)]: the row kept is replaced only by a
    row with a strictly greater value, so among equal maxima the first in
    row order stays.  (SQLite documents the choice among such rows as
    arbitrary.) *)
Fixpoint max_row (best : product_info) (rows : list product_info) : product_info :=
  match rows with
  | [] => best
  | r :: rows' => max_row (if new_price best <? new_price r then r else best) rows'
  end.

(** [SELECT MAX(new_price), timestamp FROM prices]: one result row, whose
    bare column [timestamp] comes from the row holding the maximum; both
    are NULL on an empty table. *)
Definition select_max (rows : list product_info) : option Z * option string :=
  match rows with
  | [] => (None, None)
  | r :: rows' =>
      let best := max_row r rows' in
      (Some (new_price best), Some (timestamp best))
  end.

(** ** Running a program *)

(** One call with its outcome. *)
Inductive event : Type :=
| Performed {X : Type} (op : effect X) (r : outcome X).

(** The connection [conn]: the rows of [prices] in row order, and whether
    it has been closed; with it the calls made so far, oldest first. *)
Record state : Type := {
  prices : list product_info;
  closed : bool;
  trace : list event
}.

(** What the outside world answers during one turn of the loop: to the
    HTTP request, the clock, the Telegram call, the database write and
    the sleep.  An interrupt is an answer [Exc KeyboardInterrupt]. *)
Record world : Type := {
  http : outcome Response;
  clock : string;
  telegram : outcome unit;
  storage : outcome unit;
  wakeup : outcome unit
}.

Definition set_prices (s : state) (rows : list product_info) : state :=
  {| prices := rows; closed := closed s; trace := trace s |}.

Definition set_closed (s : state) : state :=
  {| prices := prices s; closed := true; trace := trace s |}.

Definition add_events (s : state) (evs : list event) : state :=
  {| prices := prices s; closed := closed s; trace := trace s ++ evs |}.

Definition record_event (s : state) (ev : event) : state :=
  add_events s [ev].

(** The answer to a call and its effect on the connection.  The world
    decides the request, the notification, the write and the sleep; the
    query of [get_max_price], the clock, the log and [conn.close()] answer
    always: a query that fails is not part of this model. *)
Definition handle (w : world) {X : Type} (op : effect X) (s : state)
  : outcome X * state :=
  match op in effect X return outcome X * state with
  | requests_get _ => (http w, s)
  | time_strftime _ => (Ok (clock w), s)
  | select_max_fetchone => (Ok (Some (select_max (prices s))), s)
  | to_sql_append data =>
      match storage w with
      | Ok _ => (Ok tt, set_prices s (prices s ++ [data]))
      | Exc e => (Exc e, s)
      end
  | bot_send_message _ => (telegram w, s)
  | asyncio_sleep _ => (wakeup w, s)
  | logging_error _ => (Ok tt, s)
  | logging_info _ => (Ok tt, s)
  | conn_close => (Ok tt, set_closed s)
  end.

Definition perform (w : world) {X : Type} (op : effect X) (s : state)
  : outcome X * state :=
  let '(r, s') := handle w op s in (r, record_event s' (Performed op r)).

(** Run [p] to its end: returned value or escaped exception, and the
    state left behind. *)
Fixpoint run {A : Type} (w : world) (p : prog A) (s : state) : outcome A * state :=
  match p with
  | Ret a => (Ok a, s)
  | Raise e => (Exc e, s)
  | Vis op k => let '(r, s') := perform w op s in run w (k r) s'
  end.

(** Run at most [n] calls of [p]: what is left of [p], and the state. *)
Fixpoint exec {A : Type} (n : nat) (w : world) (p : prog A) (s : state)
  : prog A * state :=
  match n, p with
  | S n', Vis op k => let '(r, s') := perform w op s in exec n' w (k r) s'
  | _, _ => (p, s)
  end.

(** The [while True]: one world per turn, for as many turns as are given.
    The loop is left only by an exception. *)
Inductive loop_result : Type :=
| Polling (s : state)
| Escaped (e : exn) (w : world) (s : state).

Fixpoint while_True `{Runtime} (ws : list world) (s : state) : loop_result :=
  match ws with
  | [] => Polling s
  | w :: ws' =>
      match run w loop_body s with
      | (Ok _, s') => while_True ws' s'
      | (Exc e, s') => Escaped e w s'
      end
  end.

(** [create_connection()] on a database file whose table has the rows
    [db], none if the file is new; [setup_database] creates the table
    only if it does not exist and leaves its rows alone. *)
Definition create_connection (db : list product_info) : state :=
  {| prices := db; closed := false; trace := [] |}.

(** [main], on a database file with the rows [db]: what escapes the loop
    meets [except KeyboardInterrupt] and [finally: conn.close()].  [None]
    while the loop is still turning. *)
Definition main `{Runtime} (ws : list world) (db : list product_info)
  : option (outcome unit) * state :=
  let conn := create_connection db in
  match while_True ws conn with
  | Polling s => (None, s)
  | Escaped e w s =>
      let '(r, s') :=
        run w (try_finally
                 (catch (Raise e)
                        (fun e => if is_KeyboardInterrupt e
                                  then call (logging_info ParandoExecucao)
                                  else raise e))
                 (call conn_close)) s in
      (Some r, s')
  end.

(** *** Reading a trace *)

Definition sent (ev : event) : option message :=
  match ev with
  | Performed op _ =>
      match op with
      | bot_send_message text => Some text
      | _ => None
      end
  end.

Definition written (ev : event) : option product_info :=
  match ev with
  | Performed op r =>
      match op, r with
      | to_sql_append data, Ok _ => Some data
      | _, _ => None
      end
  end.

Definition slept (ev : event) : option Z :=
  match ev with
  | Performed op _ =>
      match op with
      | asyncio_sleep delay => Some delay
      | _ => None
      end
  end.

Definition logged_error (ev : event) : option log_record :=
  match ev with
  | Performed op _ =>
      match op with
      | logging_error r => Some r
      | _ => None
      end
  end.

(** The values a reading [f] picks from a trace, in order. *)
Fixpoint pick {B : Type} (f : event -> option B) (tr : list event) : list B :=
  match tr with
  | [] => []
  | ev :: tr' =>
      match f ev with
      | Some b => b :: pick f tr'
      | None => pick f tr'
      end
  end.

(** A stretch of calls with no notification, no database write and no
    sleep among them. *)
Definition quiet (evs : list event) : Prop :=
  pick sent evs = [] /\ pick written evs = [] /\ pick slept evs = [].

(** The calls made between state [s] and a later state [s']. *)
Definition new_events (s s' : state) : list event :=
  skipn (length (trace s)) (trace s').

(** *** What a turn fetches and extracts

    The values of [fetch_page] and of [parse_page] depend on the world of
    the turn only; they are read off a run on a fresh connection. *)

Definition fresh : state := create_connection [].

Definition fetched (w : world) : outcome (option string) :=
  fst (run w fetch_page fresh).

Definition parsed `{Runtime} (w : world) (html : string)
  : outcome (option product_info) :=
  fst (run w (parse_page html) fresh).

(** The fetch fails (a [RequestException], an error status, an empty
    body) or the parse fails. *)
Definition extraction_failed `{Runtime} (w : world) : Prop :=
  fetched w = Ok None \/ fetched w = Ok (Some "") \/
  exists html, fetched w = Ok (Some html) /\ parsed w html = Ok None.

(** The fetch and the parse succeed, and give the record [info]. *)
Definition extracts `{Runtime} (w : world) (info : product_info) : Prop :=
  exists html,
    fetched w = Ok (Some html) /\ html <> "" /\ parsed w html = Ok (Some info).

(** The Telegram call returns or raises an [Exception]: nothing that
    [send_telegram_message] lets through. *)
Definition telegram_contained (w : world) : Prop :=
  match telegram w with
  | Ok _ => True
  | Exc e => is_Exception e = true
  end.

(** A successful turn: the record [info] is extracted and no call after
    that is interrupted or faults. *)
Definition successful `{Runtime} (w : world) (info : product_info) : Prop :=
  extracts w info /\ telegram_contained w /\
  storage w = Ok tt /\ wakeup w = Ok tt.

(** The normalised text of a price element, as [parse_page] hands it to
    [int]: [e.get_text(strip=True).replace('.', '')]. *)
Definition price_text (e : PageElement) : string :=
  builtins.remove "." (get_text_strip e).

(** The turn after a successful extraction: lines 124 to 144. *)
Definition after_parse (info : product_info) : prog unit :=
  let current_price := new_price info in
  '(max_price, max_price_timestamp) <- get_max_price ;;
  (if is_new_max max_price current_price
   then
     let message := NovoPrecoMaiorDetectado current_price in
     call (logging_info (Notificacao message)) ;;
     send_telegram_message message
   else
     let message := MaiorPrecoRegistrado max_price max_price_timestamp in
     call (logging_info (Notificacao message)) ;;
     send_telegram_message message) ;;
  save_to_database (Some info) ;;
  call (logging_info (DadosSalvos info)) ;;
  call (asyncio_sleep 60).

(** The notification a turn chooses for the price [current_price] when
    the table holds [rows]. *)
Definition chosen_message (rows : list product_info) (current_price : Z) : message :=
  let '(max_price, max_price_timestamp) := select_max rows in
  if is_new_max max_price current_price
  then NovoPrecoMaiorDetectado current_price
  else MaiorPrecoRegistrado max_price max_price_timestamp.

(** The calls of a turn from the query for the maximum to the
    notification, with the state [s] the turn found. *)
Definition notify_events (w : world) (s : state) (info : product_info) : list event :=
  let message := chosen_message (prices s) (new_price info) in
  [Performed select_max_fetchone (Ok (Some (select_max (prices s))));
   Performed (logging_info (Notificacao message)) (Ok tt);
   Performed (bot_send_message message) (telegram w)].

(** The log line of a swallowed Telegram failure. *)
Definition swallow_events (w : world) : list event :=
  match telegram w with
  | Ok _ => []
  | Exc e => [Performed (logging_error (ErroAoEnviarMensagem e)) (Ok tt)]
  end.

(** The calls of a turn from the database write on. *)
Definition persist_events (w : world) (info : product_info) : list event :=
  Performed (to_sql_append info) (storage w)
  :: match storage w with
     | Ok _ => [Performed (logging_info (DadosSalvos info)) (Ok tt);
                Performed (asyncio_sleep 60) (wakeup w)]
     | Exc _ => []
     end.

(** ** Example data *)

(** A page written out as HTML text. *)
Fixpoint to_html (e : PageElement) : string :=
  match e with
  | NavigableString s => s
  | Tag name classes contents =>
      "<" ++ name
      ++ match classes with
         | [] => ""
         | _ => " class='" ++ String.concat " " classes ++ "'"
         end
      ++ ">"
      ++ (fix all (l : list PageElement) : string :=
            match l with
            | [] => ""
            | c :: l' => to_html c ++ all l'
            end) contents
      ++ "</" ++ name ++ ">"
  end.

Definition document_html (doc : soup) : string :=
  String.concat "" (map to_html doc).

(** A parser that knows the documents of [known] by their HTML text, and
    sees an empty document in every other text. *)
Definition parser_of (known : list soup) (html : string) : soup :=
  match List.find (fun d => String.eqb (document_html d) html) known with
  | Some d => d
  | None => []
  end.

Definition page_1234 : soup := example_page "iPhone 16 Pro" "1.234" "2.000" "200".
Definition page_negative : soup := example_page "iPhone 16 Pro" "-5" "2.000" "200".
Definition page_unpriced : soup := example_page "iPhone 16 Pro" "1.234" "sob consulta" "200".
Definition page_1000 : soup := example_page "iPhone 16 Pro" "1.100" "1.000" "100".
Definition page_900 : soup := example_page "iPhone 16 Pro" "1.100" "900" "90".
Definition page_1500 : soup := example_page "iPhone 16 Pro" "1.600" "1.500" "150".

(** A page without the title, and one with two prices only. *)
Definition page_untitled : soup :=
  [Tag "div" []
     [Tag "span" ["andes-money-amount__fraction"] [NavigableString "1.234"];
      Tag "span" ["andes-money-amount__fraction"] [NavigableString "2.000"];
      Tag "span" ["andes-money-amount__fraction"] [NavigableString "200"]]].

Definition page_two_prices : soup :=
  [Tag "h1" ["ui-pdp-title"] [NavigableString "iPhone 16 Pro"];
   Tag "span" ["andes-money-amount__fraction"] [NavigableString "1.234"];
   Tag "span" ["andes-money-amount__fraction"] [NavigableString "2.000"]].

(** A page with a fourth price element, which is no number. *)
Definition page_four_prices : soup :=
  [Tag "h1" ["ui-pdp-title"] [NavigableString "iPhone 16 Pro"];
   Tag "span" ["andes-money-amount__fraction"] [NavigableString "1.234"];
   Tag "span" ["andes-money-amount__fraction"] [NavigableString "2.000"];
   Tag "span" ["andes-money-amount__fraction"] [NavigableString "200"];
   Tag "span" ["andes-money-amount__fraction"] [NavigableString "frete"]].

Definition example_runtime : Runtime :=
  {| BeautifulSoup :=
       parser_of [page_1234; page_negative; page_unpriced;
                  page_1000; page_900; page_1500;
                  page_untitled; page_two_prices; page_four_prices];
     int_max_str_digits := 4300 |}.

(** A world in which everything answers: the page [doc] is served with
    status 200 at time [now]. *)
Definition serving (doc : soup) (now : string) : world :=
  {| http := Ok {| status_code := 200; text := document_html doc |};
     clock := now;
     telegram := Ok tt;
     storage := Ok tt;
     wakeup := Ok tt |}.

(** What the extractor reads off the example pages at time [now]. *)
Definition info_1000 (now : string) : product_info :=
  {| product_name := "iPhone 16 Pro"; old_price := 1100; new_price := 1000;
     installment_price := 100; timestamp := now |}.

Definition info_900 (now : string) : product_info :=
  {| product_name := "iPhone 16 Pro"; old_price := 1100; new_price := 900;
     installment_price := 90; timestamp := now |}.

Definition info_1500 (now : string) : product_info :=
  {| product_name := "iPhone 16 Pro"; old_price := 1600; new_price := 1500;
     installment_price := 150; timestamp := now |}.

Definition info_1234 (now : string) : product_info :=
  {| product_name := "iPhone 16 Pro"; old_price := 1234; new_price := 2000;
     installment_price := 200; timestamp := now |}.

Definition info_negative (now : string) : product_info :=
  {| product_name := "iPhone 16 Pro"; old_price := -5; new_price := 2000;
     installment_price := 200; timestamp := now |}.

(** A row with the price [p] recorded at [t], and a table of three. *)
Definition row_at (t : string) (p : Z) : product_info :=
  {| product_name := "iPhone 16 Pro"; old_price := p + 100; new_price := p;
     installment_price := p / 10; timestamp := t |}.

Definition three_rows : list product_info :=
  [row_at "t1" 100; row_at "t2" 250; row_at "t3" 180].

Definition with_telegram (w : world) (r : outcome unit) : world :=
  {| http := http w; clock := clock w; telegram := r;
     storage := storage w; wakeup := wakeup w |}.

Definition with_storage (w : world) (r : outcome unit) : world :=
  {| http := http w; clock := clock w; telegram := telegram w;
     storage := r; wakeup := wakeup w |}.

Definition with_http (w : world) (r : outcome Response) : world :=
  {| http := r; clock := clock w; telegram := telegram w;
     storage := storage w; wakeup := wakeup w |}.

(** ** Whole runs *)

(** The URL of a request. *)
Definition requested (ev : event) : option string :=
  match ev with
  | Performed op _ =>
      match op with
      | requests_get u => Some u
      | _ => None
      end
  end.

(** The format of a reading of the clock. *)
Definition clock_read (ev : event) : option string :=
  match ev with
  | Performed op _ =>
      match op with
      | time_strftime format => Some format
      | _ => None
      end
  end.

(** The calls of [fetch_page]: the request, and the error line when the
    request raised a [RequestException] or was answered with an error
    status. *)
Definition fetch_events (w : world) : list event :=
  Performed (requests_get url) (http w)
  :: match fetched w with
     | Ok None => [Performed (logging_error (ErroAoBuscarPagina RequestException)) (Ok tt)]
     | _ => []
     end.

(** What is left of [main] once the exception [e] has left the loop:
    the handler of [KeyboardInterrupt] and the [finally]. *)
Definition epilogue (e : exn) : prog unit :=
  try_finally
    (catch (Raise e)
           (fun e => if is_KeyboardInterrupt e
                     then call (logging_info ParandoExecucao)
                     else raise e))
    (call conn_close).

(** The state the loop is in, or was left in. *)
Definition state_of (r : loop_result) : state :=
  match r with
  | Polling s => s
  | Escaped _ _ s => s
  end.

(** The part of a turn before its sleep goes through: the record
    [Some info] is extracted, notified and written, or, for [None], the
    fetch or the parse fails. *)
Definition reaches_sleep `{Runtime} (w : world) (o : option product_info) : Prop :=
  match o with
  | Some info => extracts w info /\ telegram_contained w /\ storage w = Ok tt
  | None => extraction_failed w
  end.

(** What a turn that comes to its sleep leaves in the table: the record
    [Some info] of a successful turn, nothing for a turn whose fetch or
    parse failed. *)
Definition turn_yields `{Runtime} (w : world) (o : option product_info) : Prop :=
  match o with
  | Some info => successful w info
  | None => extraction_failed w /\ wakeup w = Ok tt
  end.

(** The same turn with its sleep cut short by the exception [e].  Under
    [asyncio.run] an interrupt reaches the coroutine at its [await] as
    [CancelledError]. *)
Definition interrupted_asleep `{Runtime}
           (w : world) (o : option product_info) (e : exn) : Prop :=
  match o with
  | Some info => extracts w info /\ telegram_contained w /\ storage w = Ok tt
  | None => extraction_failed w
  end /\ wakeup w = Exc e.

Definition observations (os : list (option product_info)) : list product_info :=
  flat_map (fun o => match o with Some info => [info] | None => [] end) os.

(** The notifications of successive records on a table that grows by
    each of them. *)
Fixpoint notifications (rows infos : list product_info) : list message :=
  match infos with
  | [] => []
  | info :: infos' =>
      chosen_message rows (new_price info) :: notifications (rows ++ [info]) infos'
  end.

(** The prices announced as new maxima. *)
Definition alerts (ms : list message) : list Z :=
  flat_map (fun m => match m with
                     | NovoPrecoMaiorDetectado p => [p]
                     | MaiorPrecoRegistrado _ _ => []
                     end) ms.

(** *** Price texts *)

(** A text of digits and dots, its number of digits, and the number its
    digits spell, read after [acc]. *)
Fixpoint digits_and_dots (s : string) : bool :=
  match s with
  | String c s' => (builtins.isdigit c || Ascii.eqb c ".") && digits_and_dots s'
  | EmptyString => true
  end.

Fixpoint count_digits (s : string) : nat :=
  match s with
  | String c s' => if builtins.isdigit c then S (count_digits s') else count_digits s'
  | EmptyString => 0
  end.

Fixpoint digits_number (acc : Z) (s : string) : Z :=
  match s with
  | String c s' =>
      if builtins.isdigit c
      then digits_number (10 * acc + builtins.digit_value c) s'
      else digits_number acc s'
  | EmptyString => acc
  end.

(** A page with a title and one price element, which is no number; and
    a runtime that knows it. *)
Definition page_one_bad_price : soup :=
  [Tag "h1" ["ui-pdp-title"] [NavigableString "iPhone 16 Pro"];
   Tag "span" ["andes-money-amount__fraction"] [NavigableString "R$"]].

Definition small_pages_runtime : Runtime :=
  {| BeautifulSoup := parser_of [page_one_bad_price; page_two_prices; page_untitled];
     int_max_str_digits := 4300 |}.

Definition with_wakeup (w : world) (r : outcome unit) : world :=
  {| http := http w; clock := clock w; telegram := telegram w;
     storage := storage w; wakeup := r |}.

(** ** Texts the parser rejects *)

(** [bs4.exceptions.ParserRejectedMarkup], a subclass of [Exception]:
    what [BeautifulSoup(html, 'html.parser')] raises on a text html.parser
    gives up on, such as one with the declaration ["<![1]>"]. *)
Definition ParserRejectedMarkup : exn := OtherException "ParserRejectedMarkup".

(** [parse_page] with the outcome of [BeautifulSoup(html, 'html.parser')]
    written out: the call is the first statement of the [try] block, and
    the handler is the one for [(AttributeError, IndexError, ValueError)].
    [parse_page] above is this function for a parser that accepts the
    text. *)
Definition parse_page_markup `{Runtime}
           (parser : string -> outcome soup) (html : string)
  : prog (option product_info) :=
  catch
    (soup <- match parser html with
             | Ok document => ret document
             | Exc e => raise e
             end ;;
     product_name <- get_text_of (find soup "h1" "ui-pdp-title") ;;
     let prices := find_all soup "span" "andes-money-amount__fraction" in
     p0 <- getitem prices 0 ;;
     old_price <- int_of (builtins.remove "." (get_text_strip p0)) ;;
     p1 <- getitem prices 1 ;;
     new_price <- int_of (builtins.remove "." (get_text_strip p1)) ;;
     p2 <- getitem prices 2 ;;
     installment_price <- int_of (builtins.remove "." (get_text_strip p2)) ;;
     timestamp <- call (time_strftime "%Y-%m-%d %H:%M:%S") ;;
     ret (Some {| product_name := product_name;
                  old_price := old_price;
                  new_price := new_price;
                  installment_price := installment_price;
                  timestamp := timestamp |}))
    (fun e =>
       if is_parse_error e
       then call (logging_error (ErroAoParsear e)) ;; ret None
       else raise e).

(** A parser that gives up on a text starting with ["<!["] and a digit,
    and reads every other text as [BeautifulSoup] does. *)
Definition rejecting_parser `{Runtime} (html : string) : outcome soup :=
  match html with
  | String "<" (String "!" (String "[" (String c _))) =>
      if builtins.isdigit c then Exc ParserRejectedMarkup else Ok (BeautifulSoup html)
  | _ => Ok (BeautifulSoup html)
  end.

(** * Properties *)

(** ** The definitions at work *)

Example int_plain : builtins.int 4300 "1234" = Some 1234.
Proof. reflexivity. Qed.

Example int_signed : builtins.int 4300 " -5 " = Some (-5).
Proof. reflexivity. Qed.

Example int_underscore : builtins.int 4300 "1_000" = Some 1000.
Proof. reflexivity. Qed.

Example int_bad :
  map (builtins.int 4300) [""; "+"; "1__0"; "_1"; "1_"; "1 2"; "12a"; "- 5"; "1.5"]
  = [None; None; None; None; None; None; None; None; None].
Proof. reflexivity. Qed.

Example strip_ex : builtins.strip "  1.234 " = "1.234".
Proof. reflexivity. Qed.

Example find_all_example :
  map get_text_strip
      (find_all (example_page " iPhone 16 Pro " "15.999" " 13.499" "1.349 ")
                "span" "andes-money-amount__fraction")
  = ["15.999"; "13.499"; "1.349"].
Proof. reflexivity. Qed.

Example find_example :
  option_map get_text_strip
      (find (example_page " iPhone 16 Pro " "15.999" "13.499" "1.349")
            "h1" "ui-pdp-title")
  = Some "iPhone 16 Pro".
Proof. reflexivity. Qed.

Example page_1234_html :
  document_html page_1234 =
  "<html><body><h1 class='ui-pdp-title'>iPhone 16 Pro</h1><div class='ui-pdp-price'><s><span class='andes-money-amount__fraction'>1.234</span></s><span class='andes-money-amount ui-pdp-price__part'><span class='andes-money-amount__currency-symbol'>R$</span><span class='andes-money-amount__fraction'>2.000</span></span><p> 10x <span class='andes-money-amount__fraction'>200</span></p></div></body></html>".
Proof. reflexivity. Qed.

Example parsed_page_1234 :
  @parsed example_runtime (serving page_1234 "2024-11-05 10:00:00") (document_html page_1234)
  = Ok (Some {| product_name := "iPhone 16 Pro"; old_price := 1234;
                new_price := 2000; installment_price := 200;
                timestamp := "2024-11-05 10:00:00" |}).
Proof. vm_compute. reflexivity. Qed.

Example scenario_three_turns :
  match @main example_runtime
          [serving page_1000 "t1"; serving page_900 "t2"; serving page_1500 "t3"] [] with
  | (r, s) => (r, map new_price (prices s), pick sent (trace s))
  end
  = (None, [1000; 900; 1500],
     [NovoPrecoMaiorDetectado 1000;
      MaiorPrecoRegistrado (Some 1000) (Some "t1");
      NovoPrecoMaiorDetectado 1500]).
Proof. vm_compute. reflexivity. Qed.

(** ** Running composed programs *)

Section RunLemmas.

Context {A B : Type}.

Lemma run_bind (w : world) (p : prog A) (f : A -> prog B) (s : state) :
  run w (bind p f) s =
  match run w p s with
  | (Ok a, s1) => run w (f a) s1
  | (Exc e, s1) => (Exc e, s1)
  end.
Proof.
  revert s. induction p as [a | e | X op k IH]; intros s; cbn.
  - reflexivity.
  - reflexivity.
  - destruct (perform w op s) as [r s1]. apply IH.
Qed.

(** Stopping after [n] calls and going on from there is the whole run. *)
Lemma run_exec (n : nat) (w : world) (p : prog A) (s : state) :
  run w (fst (exec n w p s)) (snd (exec n w p s)) = run w p s.
Proof.
  revert p s. induction n as [| n IH]; intros p s.
  - destruct p; reflexivity.
  - destruct p as [a | e | X op k]; cbn; try reflexivity.
    destruct (perform w op s) as [r s1]. apply IH.
Qed.

End RunLemmas.

Lemma run_call {X : Type} (w : world) (op : effect X) (s : state) :
  run w (call op) s =
  (fst (handle w op s),
   record_event (snd (handle w op s)) (Performed op (fst (handle w op s)))).
Proof.
  unfold call, perform; cbn. unfold perform.
  destruct (handle w op s) as [[x | e] s1]; reflexivity.
Qed.

(** ** Traces *)

Lemma add_events_app (s : state) (a b : list event) :
  add_events (add_events s a) b = add_events s (a ++ b).
Proof. unfold add_events; cbn. now rewrite app_assoc. Qed.

Lemma record_add_events (s : state) (a : list event) (ev : event) :
  record_event (add_events s a) ev = add_events s (a ++ [ev]).
Proof. apply add_events_app. Qed.

Lemma new_events_add (s : state) (evs : list event) :
  new_events s (add_events s evs) = evs.
Proof.
  unfold new_events, add_events; cbn.
  rewrite skipn_app, skipn_all, Nat.sub_diag. reflexivity.
Qed.

Lemma new_events_set_prices (s : state) (rows : list product_info) (evs : list event) :
  new_events s (add_events (set_prices s rows) evs) = evs.
Proof. apply (new_events_add s evs). Qed.

Lemma set_prices_add_events (s : state) (evs : list event) (rows : list product_info) :
  set_prices (add_events s evs) rows = add_events (set_prices s rows) evs.
Proof. reflexivity. Qed.

Lemma pick_app {C : Type} (f : event -> option C) (a b : list event) :
  pick f (a ++ b) = (pick f a ++ pick f b)%list.
Proof.
  induction a as [| ev a IH]; cbn; [reflexivity |].
  destruct (f ev); cbn; now rewrite IH.
Qed.

(** ** The helpers of [main], one by one *)

(** Unfold the calls of a program on a state. *)
Ltac run_calls := repeat (progress (unfold perform; cbn)).

(** Gather the events added to a state into one list. *)
Ltac tidy_trace :=
  repeat first
    [ rewrite set_prices_add_events
    | rewrite record_add_events
    | rewrite add_events_app
    | rewrite new_events_add
    | rewrite new_events_set_prices ];
  cbn [app].

Lemma run_fetch_page (w : world) (s : state) :
  exists evs,
    run w fetch_page s = (fetched w, add_events s evs) /\ quiet evs.
Proof.
  unfold fetched, fetch_page, raise_for_status. cbn. unfold perform. cbn.
  destruct (http w) as [response | e]; cbn.
  - destruct ((400 <=? status_code response) && (status_code response <? 600)); cbn;
      eexists; (split; [unfold record_event; tidy_trace; reflexivity | repeat split]).
  - destruct e; cbn;
      eexists; (split; [unfold record_event; tidy_trace; reflexivity | repeat split]).
Qed.

(** What [fetch_page] returns, by the answer to the request. *)
Lemma fetched_eq (w : world) :
  fetched w =
  match http w with
  | Ok response =>
      if (400 <=? status_code response) && (status_code response <? 600)
      then Ok None
      else Ok (Some (text response))
  | Exc e => if is_RequestException e then Ok None else Exc e
  end.
Proof.
  unfold fetched, fetch_page, raise_for_status. run_calls.
  destruct (http w) as [response | e]; cbn.
  - destruct ((400 <=? status_code response) && (status_code response <? 600));
      reflexivity.
  - destruct e; reflexivity.
Qed.

Section Extractor.

Context {R : Runtime}.

(** The value of [parse_page] written out: the title, the first three
    price elements, the clock. *)
Lemma parsed_eq (w : world) (html : string) :
  parsed w html =
  Ok match find (BeautifulSoup html) "h1" "ui-pdp-title" with
     | None => None
     | Some h =>
         match find_all (BeautifulSoup html) "span" "andes-money-amount__fraction" with
         | e0 :: e1 :: e2 :: _ =>
             match builtins.int int_max_str_digits (price_text e0),
                   builtins.int int_max_str_digits (price_text e1),
                   builtins.int int_max_str_digits (price_text e2) with
             | Some a, Some b, Some c =>
                 Some {| product_name := get_text_strip h;
                         old_price := a;
                         new_price := b;
                         installment_price := c;
                         timestamp := clock w |}
             | _, _, _ => None
             end
         | _ => None
         end
     end.
Proof.
  unfold parsed, parse_page, get_text_of, getitem, int_of, price_text. cbn.
  destruct (find (BeautifulSoup html) "h1" "ui-pdp-title") as [h |]; cbn;
    [| reflexivity].
  destruct (find_all (BeautifulSoup html) "span" "andes-money-amount__fraction")
    as [| e0 [| e1 [| e2 rest]]]; cbn.
  - reflexivity.
  - destruct (builtins.int _ _); reflexivity.
  - destruct (builtins.int _ _); cbn; [| reflexivity].
    destruct (builtins.int _ _); reflexivity.
  - destruct (builtins.int _ _); cbn; [| reflexivity].
    destruct (builtins.int _ _); cbn; [| reflexivity].
    destruct (builtins.int _ _); reflexivity.
Qed.

Lemma run_parse_page (w : world) (html : string) (s : state) :
  exists evs,
    run w (parse_page html) s = (parsed w html, add_events s evs) /\ quiet evs.
Proof.
  unfold parsed, parse_page, get_text_of, getitem, int_of. cbn.
  destruct (find (BeautifulSoup html) "h1" "ui-pdp-title") as [h |]; cbn;
    [| eexists; split; [unfold perform, record_event; cbn; reflexivity | repeat split]].
  destruct (find_all (BeautifulSoup html) "span" "andes-money-amount__fraction")
    as [| e0 [| e1 [| e2 rest]]]; cbn;
    repeat (destruct (builtins.int _ _); cbn);
    eexists; (split; [unfold perform, record_event; cbn; tidy_trace; reflexivity
                     | repeat split]).
Qed.

End Extractor.

(** ** One turn of the loop *)

Section Turn.

Context {R : Runtime}.

Lemma run_loop_body (w : world) (s : state) :
  run w loop_body s =
  match run w fetch_page s with
  | (Ok None, s1) => run w (call (asyncio_sleep 60)) s1
  | (Ok (Some EmptyString), s1) => run w (call (asyncio_sleep 60)) s1
  | (Ok (Some html), s1) =>
      match run w (parse_page html) s1 with
      | (Ok None, s2) => run w (call (asyncio_sleep 60)) s2
      | (Ok (Some info), s2) => run w (after_parse info) s2
      | (Exc e, s2) => (Exc e, s2)
      end
  | (Exc e, s1) => (Exc e, s1)
  end.
Proof.
  unfold loop_body. rewrite run_bind.
  destruct (run w fetch_page s) as [[[[| c html] |] | e] s1]; try reflexivity.
  rewrite run_bind.
  destruct (run w (parse_page (String c html)) s1) as [[[info |] | e] s2];
    reflexivity.
Qed.

(** A turn whose fetch and parse succeed goes on with [after_parse]. *)
Lemma turn_extracted (w : world) (s : state) (html : string) (info : product_info) :
  fetched w = Ok (Some html) -> html <> "" -> parsed w html = Ok (Some info) ->
  exists evs,
    quiet evs /\
    run w loop_body s = run w (after_parse info) (add_events s evs).
Proof.
  intros Hf Hne Hp. rewrite run_loop_body.
  destruct (run_fetch_page w s) as [evs1 [E1 Q1]]. rewrite E1, Hf.
  destruct html as [| c html]; [congruence |].
  destruct (run_parse_page w (String c html) (add_events s evs1)) as [evs2 [E2 Q2]].
  rewrite E2, Hp. exists (evs1 ++ evs2)%list. split.
  - destruct Q1 as [Q1a [Q1b Q1c]], Q2 as [Q2a [Q2b Q2c]].
    unfold quiet. rewrite !pick_app, Q1a, Q1b, Q1c, Q2a, Q2b, Q2c. repeat split.
  - now rewrite add_events_app.
Qed.

(** The failures of the extraction, by what the request answered: a
    [RequestException], a status from 400 to 599, an empty body, or a page
    [parse_page] gives up on. *)
Lemma extraction_failed_iff (w : world) :
  extraction_failed w <->
  http w = Exc RequestException \/
  exists response,
    http w = Ok response /\
    ((400 <= status_code response < 600) \/
     text response = "" \/
     parsed w (text response) = Ok None).
Proof.
  unfold extraction_failed. rewrite fetched_eq. split.
  - destruct (http w) as [response | e].
    + intros H. right. exists response. split; [reflexivity |].
      destruct ((400 <=? status_code response) && (status_code response <? 600)) eqn:Hst.
      * left. apply andb_true_iff in Hst. destruct Hst as [H1 H2].
        apply Z.leb_le in H1. apply Z.ltb_lt in H2. lia.
      * right. destruct H as [H | [H | [html [H Hp]]]].
        -- discriminate.
        -- injection H as ->. now left.
        -- injection H as ->. now right.
    + intros H. left. destruct e; cbn in H;
        try reflexivity;
        destruct H as [H | [H | [html [H _]]]]; discriminate.
  - intros [-> | [response [-> H]]].
    + now left.
    + destruct ((400 <=? status_code response) && (status_code response <? 600)) eqn:Hst;
        [now left |].
      destruct H as [H | [H | H]].
      * apply andb_false_iff in Hst. destruct Hst as [Hst | Hst];
          [apply Z.leb_gt in Hst | apply Z.ltb_ge in Hst]; lia.
      * right; left. now rewrite H.
      * right; right. now exists (text response).
Qed.

(** A turn whose fetch or parse fails goes straight to the sleep. *)
Lemma turn_failed (w : world) (s : state) :
  extraction_failed w ->
  exists evs,
    quiet evs /\
    run w loop_body s = run w (call (asyncio_sleep 60)) (add_events s evs).
Proof.
  intros Hfail. rewrite run_loop_body.
  destruct (run_fetch_page w s) as [evs1 [E1 Q1]]. rewrite E1.
  destruct Hfail as [Hf | [Hf | [html [Hf Hp]]]]; rewrite Hf.
  - exists evs1. now split.
  - exists evs1. now split.
  - destruct html as [| c html]; [exists evs1; now split |].
    destruct (run_parse_page w (String c html) (add_events s evs1)) as [evs2 [E2 Q2]].
    rewrite E2, Hp. exists (evs1 ++ evs2)%list. split.
    + destruct Q1 as [Q1a [Q1b Q1c]], Q2 as [Q2a [Q2b Q2c]].
      unfold quiet. rewrite !pick_app, Q1a, Q1b, Q1c, Q2a, Q2b, Q2c. repeat split.
    + now rewrite add_events_app.
Qed.

End Turn.

(** ** The turn after the extraction, in closed form *)

Lemma select_max_None_timestamp (rows : list product_info) (ts : option string) :
  select_max rows = (None, ts) -> ts = None.
Proof. destruct rows; cbn; congruence. Qed.

(** The query, the log line and the Telegram call: the three calls that
    come first, whatever the world answers. *)
Lemma exec_after_parse (w : world) (s : state) (info : product_info) :
  snd (exec 3 w (after_parse info) s) = add_events s (notify_events w s info).
Proof.
  unfold after_parse, notify_events, chosen_message, get_max_price. cbn.
  unfold perform. cbn.
  destruct (select_max (prices s)) as [[m |] ts]; cbn.
  - destruct (new_price info >? m); cbn; unfold perform; cbn;
      unfold record_event; tidy_trace; reflexivity.
  - unfold perform; cbn; unfold record_event; tidy_trace; reflexivity.
Qed.

(** An interrupt in the Telegram call ends the turn there. *)
Lemma run_after_parse_interrupted
      (w : world) (s : state) (info : product_info) (e : exn) :
  telegram w = Exc e -> is_Exception e = false ->
  run w (after_parse info) s = (Exc e, add_events s (notify_events w s info)).
Proof.
  destruct w as [h c t st wk]; cbn. intros -> He.
  unfold after_parse, notify_events, chosen_message, get_max_price,
    send_telegram_message. run_calls.
  destruct (select_max (prices s)) as [[m |] ts]; run_calls;
    [destruct (new_price info >? m); run_calls |];
    rewrite He; run_calls; unfold record_event; tidy_trace; reflexivity.
Qed.

(** Otherwise the turn reaches the database write; the write decides
    whether the row is there and whether the turn gets to its sleep. *)
Lemma run_after_parse (w : world) (s : state) (info : product_info) :
  telegram_contained w ->
  run w (after_parse info) s =
  match storage w with
  | Ok _ =>
      (wakeup w,
       add_events (set_prices s (prices s ++ [info]))
         (notify_events w s info ++ swallow_events w ++ persist_events w info))
  | Exc e =>
      (Exc e,
       add_events s
         (notify_events w s info ++ swallow_events w ++ persist_events w info))
  end.
Proof.
  unfold telegram_contained. destruct w as [h c t st wk]; cbn. intros Ht.
  unfold after_parse, notify_events, swallow_events, persist_events,
    chosen_message, get_max_price, send_telegram_message, save_to_database.
  run_calls.
  destruct (select_max (prices s)) as [[m |] ts]; run_calls;
    [destruct (new_price info >? m); run_calls |];
    (destruct t as [[] | e]; run_calls; [| rewrite Ht; run_calls]);
    (destruct st as [[] | e']; run_calls; [destruct wk as [[] | e'']; run_calls |]);
    unfold record_event; tidy_trace; reflexivity.
Qed.

(** ** The maximum query *)

Lemma max_row_In (best : product_info) (rows : list product_info) :
  In (max_row best rows) (best :: rows).
Proof.
  revert best. induction rows as [| r rows IH]; intros best; cbn.
  - now left.
  - destruct (IH (if new_price best <? new_price r then r else best)) as [E | HIn].
    + destruct (new_price best <? new_price r); rewrite <- E; auto.
    + auto.
Qed.

Lemma max_row_ge_best (best : product_info) (rows : list product_info) :
  new_price best <= new_price (max_row best rows).
Proof.
  revert best. induction rows as [| r rows IH]; intros best; cbn.
  - lia.
  - specialize (IH (if new_price best <? new_price r then r else best)).
    destruct (Z.ltb_spec (new_price best) (new_price r)); lia.
Qed.

Lemma max_row_upper (best : product_info) (rows : list product_info) (r : product_info) :
  In r (best :: rows) -> new_price r <= new_price (max_row best rows).
Proof.
  revert best. induction rows as [| r' rows IH]; intros best [E | HIn].
  - subst. cbn. lia.
  - destruct HIn.
  - subst. apply max_row_ge_best.
  - cbn. destruct HIn as [E | HIn].
    + subst r'.
      pose proof (max_row_ge_best (if new_price best <? new_price r then r else best) rows).
      destruct (Z.ltb_spec (new_price best) (new_price r)); lia.
    + apply IH. now right.
Qed.

Lemma select_max_empty (rows : list product_info) :
  fst (select_max rows) = None <-> rows = [].
Proof. destruct rows; cbn; split; congruence. Qed.

Lemma run_get_max_price (w : world) (s : state) :
  run w get_max_price s =
  (Ok (select_max (prices s)),
   add_events s [Performed select_max_fetchone (Ok (Some (select_max (prices s))))]).
Proof.
  unfold get_max_price. run_calls.
  destruct (select_max (prices s)) as [[m |] ts] eqn:E; cbn.
  - reflexivity.
  - now rewrite (select_max_None_timestamp _ _ E).
Qed.

(** C2: on a table with rows, [get_max_price] returns the greatest
    [new_price] of the table and the [timestamp] of a row that has it; on
    an empty table it returns [(None, None)]; after the insertion of
    three records with the prices 100, 250 and 180 into an empty table it
    returns 250 and the timestamp of the second. *)
Theorem get_max_price_maximum (w : world) (s : state) :
  (prices s <> [] ->
   exists m t,
     fst (run w get_max_price s) = Ok (Some m, Some t) /\
     (forall r, In r (prices s) -> new_price r <= m) /\
     (exists r, In r (prices s) /\ new_price r = m /\ timestamp r = t)) /\
  (prices s = [] -> fst (run w get_max_price s) = Ok (None, None)) /\
  (forall r1 r2 r3 : product_info,
     prices s = [] -> storage w = Ok tt ->
     new_price r1 = 100 -> new_price r2 = 250 -> new_price r3 = 180 ->
     fst (run w (save_to_database (Some r1) ;;
                 save_to_database (Some r2) ;;
                 save_to_database (Some r3) ;;
                 get_max_price) s)
     = Ok (Some 250, Some (timestamp r2))).
Proof.
  rewrite run_get_max_price. cbn [fst]. split; [| split].
  - destruct (prices s) as [| r0 rows]; [congruence |]. intros _.
    exists (new_price (max_row r0 rows)), (timestamp (max_row r0 rows)).
    split; [reflexivity |]. split.
    + intros r. apply max_row_upper.
    + exists (max_row r0 rows). split; [apply max_row_In | split; reflexivity].
  - intros ->. reflexivity.
  - intros r1 r2 r3 Hs Hw H1 H2 H3.
    destruct w as [h c t st wk]; cbn in Hw; subst st.
    unfold save_to_database, get_max_price. run_calls. rewrite Hs. cbn.
    repeat (progress (rewrite ?H1, ?H2, ?H3; cbn)). reflexivity.
Qed.

(** The claim at work on an empty connection. *)
Lemma get_max_price_maximum_witness :
  fst (run (serving page_1234 "now")
         (save_to_database (Some (row_at "t1" 100)) ;;
          save_to_database (Some (row_at "t2" 250)) ;;
          save_to_database (Some (row_at "t3" 180)) ;;
          get_max_price) fresh)
  = Ok (Some 250, Some "t2") /\
  exists m t,
    fst (run (serving page_1234 "now") get_max_price (create_connection three_rows))
    = Ok (Some m, Some t) /\
    (forall x, In x three_rows -> new_price x <= m) /\
    (exists x, In x three_rows /\ new_price x = m /\ timestamp x = t).
Proof.
  split.
  - apply (proj2 (proj2 (get_max_price_maximum (serving page_1234 "now") fresh))
             (row_at "t1" 100) (row_at "t2" 250) (row_at "t3" 180)); reflexivity.
  - apply (proj1 (get_max_price_maximum (serving page_1234 "now") (create_connection three_rows))).
    cbn. discriminate.
Defined.

(** ** A whole turn, in closed form *)

Lemma pick_sent_notify (w : world) (s : state) (info : product_info) :
  pick sent (notify_events w s info) = [chosen_message (prices s) (new_price info)].
Proof. reflexivity. Qed.

Lemma pick_written_notify (w : world) (s : state) (info : product_info) :
  pick written (notify_events w s info) = [].
Proof. reflexivity. Qed.

Lemma quiet_swallow (w : world) : quiet (swallow_events w).
Proof. unfold swallow_events. destruct (telegram w); repeat split. Qed.

Lemma pick_sent_persist (w : world) (info : product_info) :
  pick sent (persist_events w info) = [].
Proof. unfold persist_events. destruct (storage w); reflexivity. Qed.

Lemma pick_written_persist (w : world) (info : product_info) :
  pick written (persist_events w info) =
  match storage w with Ok _ => [info] | Exc _ => [] end.
Proof. unfold persist_events. destruct (storage w); reflexivity. Qed.

Section TurnClosedForm.

Context {R : Runtime}.

(** The successful turn that is not interrupted in the Telegram call. *)
Lemma turn_contained (w : world) (s : state) (info : product_info) :
  extracts w info -> telegram_contained w ->
  exists evs,
    quiet evs /\
    run w loop_body s =
    match storage w with
    | Ok _ =>
        (wakeup w,
         add_events (set_prices s (prices s ++ [info]))
           (evs ++ notify_events w s info ++ swallow_events w ++ persist_events w info))
    | Exc e =>
        (Exc e,
         add_events s
           (evs ++ notify_events w s info ++ swallow_events w ++ persist_events w info))
    end.
Proof.
  intros [html [Hf [Hne Hp]]] Ht.
  destruct (turn_extracted w s html info Hf Hne Hp) as [evs [Q E]].
  exists evs. split; [exact Q |].
  rewrite E, (run_after_parse w (add_events s evs) info Ht).
  destruct (storage w); tidy_trace; reflexivity.
Qed.

(** The successful turn that is interrupted in the Telegram call. *)
Lemma turn_interrupted (w : world) (s : state) (info : product_info) (e : exn) :
  extracts w info -> telegram w = Exc e -> is_Exception e = false ->
  exists evs,
    quiet evs /\
    run w loop_body s = (Exc e, add_events s (evs ++ notify_events w s info)).
Proof.
  intros [html [Hf [Hne Hp]]] Ht He.
  destruct (turn_extracted w s html info Hf Hne Hp) as [evs [Q E]].
  exists evs. split; [exact Q |].
  rewrite E, (run_after_parse_interrupted w (add_events s evs) info e Ht He).
  tidy_trace. reflexivity.
Qed.

Lemma telegram_cases (w : world) :
  telegram_contained w \/ exists e, telegram w = Exc e /\ is_Exception e = false.
Proof.
  unfold telegram_contained. destruct (telegram w) as [x | e]; [now left |].
  destruct (is_Exception e) eqn:He; [now left | right; now exists e].
Qed.

(** The notifications of a successful turn: the chosen one, once. *)
Lemma turn_sent (w : world) (s : state) (info : product_info) :
  extracts w info ->
  pick sent (new_events s (snd (run w loop_body s)))
  = [chosen_message (prices s) (new_price info)].
Proof.
  intros Hx. destruct (telegram_cases w) as [Ht | [e [Ht He]]].
  - destruct (turn_contained w s info Hx Ht) as [evs [[Qs _] E]]. rewrite E.
    destruct (storage w); cbn [snd]; tidy_trace;
      rewrite !pick_app, Qs, pick_sent_notify, pick_sent_persist;
      destruct (quiet_swallow w) as [-> _]; reflexivity.
  - destruct (turn_interrupted w s info e Hx Ht He) as [evs [[Qs _] E]]. rewrite E.
    cbn [snd]; tidy_trace. rewrite pick_app, Qs, pick_sent_notify. reflexivity.
Qed.

End TurnClosedForm.

(** ** C1: the notification of a successful turn *)

(** C1: a turn whose fetch and parse succeed sends exactly one
    notification.  It is the new-maximum text with the new price when the
    maximum read before the write is the no-data value, which is the case
    exactly on an empty table, or is strictly below the new price; it is
    the recorded-maximum text with that maximum and its timestamp
    otherwise, equality included. *)
Theorem one_notification_chosen
        {R : Runtime} (w : world) (s : state) (info : product_info) :
  extracts w info ->
  exists m,
    pick sent (new_events s (snd (run w loop_body s))) = [m] /\
    (prices s = [] -> m = NovoPrecoMaiorDetectado (new_price info)) /\
    (fst (select_max (prices s)) = None <-> prices s = []) /\
    (forall mx t, select_max (prices s) = (Some mx, t) ->
                  mx < new_price info ->
                  m = NovoPrecoMaiorDetectado (new_price info)) /\
    (forall mx t, select_max (prices s) = (Some mx, t) ->
                  new_price info <= mx ->
                  m = MaiorPrecoRegistrado (Some mx) t).
Proof.
  intros Hx. exists (chosen_message (prices s) (new_price info)).
  split; [apply turn_sent, Hx |]. unfold chosen_message.
  split; [intros ->; reflexivity |].
  split; [apply select_max_empty |].
  split; intros mx t ->; cbn; intros Hlt.
  - destruct (Z.gtb_spec (new_price info) mx); [reflexivity | lia].
  - destruct (Z.gtb_spec (new_price info) mx); [lia | reflexivity].
Qed.

Example extracts_1000 (now : string) :
  @extracts example_runtime (serving page_1000 now) (info_1000 now).
Proof.
  exists (document_html page_1000). repeat split.
  - vm_compute. discriminate.
Qed.

Example extracts_900 (now : string) :
  @extracts example_runtime (serving page_900 now) (info_900 now).
Proof.
  exists (document_html page_900). repeat split.
  - vm_compute. discriminate.
Qed.

Example extracts_1500 (now : string) :
  @extracts example_runtime (serving page_1500 now) (info_1500 now).
Proof.
  exists (document_html page_1500). repeat split.
  - vm_compute. discriminate.
Qed.

(** On a first turn and on a later turn below the recorded maximum. *)
Lemma one_notification_chosen_witness :
  @extracts example_runtime (serving page_900 "t2") (info_900 "t2") /\
  pick sent (new_events (create_connection [info_1000 "t1"])
               (snd (run (serving page_900 "t2") (@loop_body example_runtime)
                         (create_connection [info_1000 "t1"]))))
  = [MaiorPrecoRegistrado (Some 1000) (Some "t1")].
Proof.
  split; [apply extracts_900 |].
  destruct (@one_notification_chosen example_runtime (serving page_900 "t2")
              (create_connection [info_1000 "t1"]) (info_900 "t2") (extracts_900 "t2"))
    as [m [E [_ [_ [_ Hle]]]]].
  rewrite E. f_equal. apply (Hle 1000 (Some "t1")); [reflexivity | cbn; lia].
Defined.

(** ** C3: the append *)

Section Append.

Context {R : Runtime}.

Lemma successful_turn (w : world) (s : state) (info : product_info) :
  successful w info ->
  exists evs,
    quiet evs /\
    run w loop_body s =
    (Ok tt,
     add_events (set_prices s (prices s ++ [info]))
       (evs ++ notify_events w s info ++ swallow_events w ++ persist_events w info)).
Proof.
  intros [Hx [Ht [Hst Hwk]]].
  destruct (turn_contained w s info Hx Ht) as [evs [Q E]].
  exists evs. split; [exact Q |]. rewrite E, Hst, Hwk. reflexivity.
Qed.

(** Successful turns in a row append their records in order. *)
Lemma while_True_appends (ws : list world) (infos : list product_info) (s : state) :
  Forall2 successful ws infos ->
  exists s', while_True ws s = Polling s' /\ prices s' = (prices s ++ infos)%list.
Proof.
  intros HF. revert s.
  induction HF as [| w info ws infos Hw HF IH]; intros s; cbn [while_True].
  - exists s. now rewrite app_nil_r.
  - destruct (successful_turn w s info Hw) as [evs [_ E]]. rewrite E.
    destruct (IH (add_events (set_prices s (prices s ++ [info]))
                    (evs ++ notify_events w s info ++ swallow_events w
                         ++ persist_events w info))) as [s' [E' Hp]].
    exists s'. split; [exact E' |]. rewrite Hp. cbn. now rewrite <- app_assoc.
Qed.

End Append.

(** C3: in a successful turn the maximum that decides the notification is
    the one of the table as the turn found it: the query is answered
    before any write, and on an empty table the new-maximum text goes out
    although the price does not exceed the maximum of the table once the
    record is in.  The record is then appended, whichever text was chosen;
    and successful turns in a row, begun on an empty table, leave exactly
    their records, in order, so as many rows as turns. *)
Theorem observation_appended_after_comparison {R : Runtime} :
  (forall (w : world) (s : state) (info : product_info),
     successful w info ->
     let s' := snd (run w loop_body s) in
     (exists before after,
        new_events s s' =
        (before ++ Performed select_max_fetchone (Ok (Some (select_max (prices s))))
                :: after)%list /\
        pick written before = [] /\ pick written after = [info]) /\
     pick sent (new_events s s') = [chosen_message (prices s) (new_price info)] /\
     (prices s = [] ->
      chosen_message (prices s) (new_price info)
        = NovoPrecoMaiorDetectado (new_price info) /\
      chosen_message (prices s') (new_price info)
        = MaiorPrecoRegistrado (Some (new_price info)) (Some (timestamp info))) /\
     prices s' = (prices s ++ [info])%list) /\
  (forall (ws : list world) (infos : list product_info) (s : state),
     Forall2 successful ws infos -> prices s = [] ->
     exists s', while_True ws s = Polling s' /\
                prices s' = infos /\ length (prices s') = length ws).
Proof.
  split.
  - intros w s info Hw s'. subst s'.
    destruct (successful_turn w s info Hw) as [evs [[Qs [Qw Ql]] E]].
    rewrite E. cbn [snd]. tidy_trace. destruct Hw as [Hx [Ht [Hst Hwk]]].
    split; [| split; [| split]].
    + exists evs.
      exists ([Performed (logging_info
                           (Notificacao (chosen_message (prices s) (new_price info))))
                        (Ok tt);
               Performed (bot_send_message (chosen_message (prices s) (new_price info)))
                        (telegram w)]
              ++ swallow_events w ++ persist_events w info)%list.
      split; [reflexivity |]. split; [exact Qw |].
      rewrite !pick_app, pick_written_persist, Hst.
      destruct (quiet_swallow w) as [_ [-> _]]. reflexivity.
    + rewrite !pick_app, Qs, pick_sent_notify, pick_sent_persist.
      destruct (quiet_swallow w) as [-> _]. reflexivity.
    + intros Hs. cbn. rewrite Hs. cbn. unfold chosen_message. cbn.
      rewrite Z.gtb_ltb, Z.ltb_irrefl. split; reflexivity.
    + reflexivity.
  - intros ws infos s HF Hs.
    destruct (while_True_appends ws infos s HF) as [s' [E Hp]].
    exists s'. rewrite Hs in Hp. cbn in Hp. split; [exact E |]. split; [exact Hp |].
    rewrite Hp. symmetry. apply (Forall2_length HF).
Qed.

Example successful_1000 (now : string) :
  @successful example_runtime (serving page_1000 now) (info_1000 now).
Proof. split; [apply extracts_1000 | repeat split]. Qed.

Example successful_900_telegram_down (now : string) :
  @successful example_runtime
    (with_telegram (serving page_900 now) (Exc (OtherException "NetworkError")))
    (info_900 now).
Proof.
  split; [| repeat split].
  exists (document_html page_900). repeat split. vm_compute. discriminate.
Qed.

Example successful_1500 (now : string) :
  @successful example_runtime (serving page_1500 now) (info_1500 now).
Proof. split; [apply extracts_1500 | repeat split]. Qed.

(** Three turns on an empty table, the second with Telegram down. *)
Lemma observation_appended_after_comparison_witness :
  Forall2 (@successful example_runtime)
    [serving page_1000 "t1";
     with_telegram (serving page_900 "t2") (Exc (OtherException "NetworkError"));
     serving page_1500 "t3"]
    [info_1000 "t1"; info_900 "t2"; info_1500 "t3"] /\
  (exists s',
     @while_True example_runtime
       [serving page_1000 "t1";
        with_telegram (serving page_900 "t2") (Exc (OtherException "NetworkError"));
        serving page_1500 "t3"] fresh = Polling s' /\
     prices s' = [info_1000 "t1"; info_900 "t2"; info_1500 "t3"] /\
     length (prices s') = 3%nat) /\
  prices (snd (run (serving page_1000 "t1") (@loop_body example_runtime) fresh))
  = [info_1000 "t1"].
Proof.
  assert (HF : Forall2 (@successful example_runtime)
                 [serving page_1000 "t1";
                  with_telegram (serving page_900 "t2")
                    (Exc (OtherException "NetworkError"));
                  serving page_1500 "t3"]
                 [info_1000 "t1"; info_900 "t2"; info_1500 "t3"]).
  { repeat constructor;
      [apply successful_1000 | apply successful_900_telegram_down
       | apply successful_1500]. }
  split; [exact HF |]. split.
  - apply (proj2 (@observation_appended_after_comparison example_runtime) _ _ fresh HF).
    reflexivity.
  - apply (proj1 (@observation_appended_after_comparison example_runtime)
             (serving page_1000 "t1") fresh (info_1000 "t1") (successful_1000 "t1")).
Defined.

(** ** C4: a turn whose fetch or parse fails *)



(** ** C6: a failing notification *)

(** C6: when the Telegram call of a successful extraction raises an
    [Exception], the error is logged and goes no further: the turn ends as
    the database write and the sleep decide, never with that exception;
    the record is appended if the write succeeds, and the loop then goes
    on with the next turn. *)
Theorem telegram_failure_swallowed
        {R : Runtime} (w : world) (s : state) (info : product_info) (e : exn) :
  extracts w info -> telegram w = Exc e -> is_Exception e = true ->
  let s' := snd (run w loop_body s) in
  In (ErroAoEnviarMensagem e) (pick logged_error (new_events s s')) /\
  fst (run w loop_body s)
    = match storage w with Ok _ => wakeup w | Exc e' => Exc e' end /\
  (storage w = Ok tt ->
   prices s' = (prices s ++ [info])%list /\
   pick written (new_events s s') = [info] /\
   fst (run w loop_body s) = wakeup w) /\
  (storage w = Ok tt -> wakeup w = Ok tt ->
   forall ws, while_True (w :: ws) s = while_True ws s').
Proof.
  intros Hx Ht He s'. subst s'.
  assert (Hc : telegram_contained w) by (unfold telegram_contained; now rewrite Ht).
  destruct (turn_contained w s info Hx Hc) as [evs [[Qs [Qw Ql]] E]].
  cbn [while_True]. rewrite E.
  split; [| split; [| split]].
  - assert (Hin : In (ErroAoEnviarMensagem e)
                     (pick logged_error
                        (evs ++ notify_events w s info ++ swallow_events w
                             ++ persist_events w info))).
    { rewrite !pick_app. apply in_or_app. right. apply in_or_app. right.
      apply in_or_app. left. unfold swallow_events. rewrite Ht. cbn. now left. }
    destruct (storage w); cbn [snd]; tidy_trace; exact Hin.
  - destruct (storage w); reflexivity.
  - intros Hst. rewrite Hst. cbn [fst snd]. tidy_trace.
    split; [reflexivity |]. split; [| reflexivity].
    rewrite !pick_app, Qw, pick_written_notify, pick_written_persist, Hst.
    destruct (quiet_swallow w) as [_ [-> _]]. reflexivity.
  - intros Hst Hwk ws. rewrite Hst, Hwk. reflexivity.
Qed.

(** The second turn of the example with Telegram down. *)
Lemma telegram_failure_swallowed_witness :
  @extracts example_runtime
    (with_telegram (serving page_900 "t2") (Exc (OtherException "NetworkError")))
    (info_900 "t2") /\
  prices (snd (run (with_telegram (serving page_900 "t2")
                      (Exc (OtherException "NetworkError")))
                 (@loop_body example_runtime) (create_connection [info_1000 "t1"])))
  = [info_1000 "t1"; info_900 "t2"] /\
  fst (run (with_telegram (serving page_900 "t2")
              (Exc (OtherException "NetworkError")))
         (@loop_body example_runtime) (create_connection [info_1000 "t1"]))
  = Ok tt.
Proof.
  pose proof (successful_900_telegram_down "t2") as [Hx _].
  split; [exact Hx |].
  destruct (@telegram_failure_swallowed example_runtime
              (with_telegram (serving page_900 "t2")
                 (Exc (OtherException "NetworkError")))
              (create_connection [info_1000 "t1"]) (info_900 "t2")
              (OtherException "NetworkError") Hx eq_refl eq_refl)
    as [_ [_ [Happ _]]].
  destruct (Happ eq_refl) as [Hp [_ Hr]]. split; [exact Hp | exact Hr].
Defined.

(** ** C10: between the notification and the append *)

Section Prefixes.

Context {A B : Type}.

Lemma exec_bind_run (w : world) (p : prog A) (f : A -> prog B)
      (s s1 : state) (a : A) :
  run w p s = (Ok a, s1) -> exists n, exec n w (bind p f) s = (f a, s1).
Proof.
  revert s. induction p as [a' | e | X op k IH]; intros s; cbn.
  - intros [= -> ->]. exists 0%nat. destruct (f a); reflexivity.
  - discriminate.
  - destruct (perform w op s) as [r s'] eqn:Ep. intros Hrun.
    destruct (IH r s' Hrun) as [n En]. exists (S n). cbn. now rewrite Ep.
Qed.

Lemma exec_add (n m : nat) (w : world) (p : prog A) (s : state) :
  exec (n + m) w p s = exec m w (fst (exec n w p s)) (snd (exec n w p s)).
Proof.
  revert p s. induction n as [| n IH]; intros p s.
  - destruct p; reflexivity.
  - destruct p as [a | e | X op k]; cbn; try (destruct m; reflexivity).
    destruct (perform w op s) as [r s']. apply IH.
Qed.

End Prefixes.

Section Interleaving.

Context {R : Runtime}.

(** After a successful extraction the turn stands before [after_parse],
    with nothing sent, written or slept so far. *)
Lemma exec_to_after_parse (w : world) (s : state) (info : product_info) :
  extracts w info ->
  exists n evs,
    quiet evs /\ exec n w loop_body s = (after_parse info, add_events s evs).
Proof.
  intros [html [Hf [Hne Hp]]].
  destruct (run_fetch_page w s) as [evs1 [E1 Q1]]. rewrite Hf in E1.
  destruct html as [| c html]; [congruence |].
  destruct (run_parse_page w (String c html) (add_events s evs1)) as [evs2 [E2 Q2]].
  rewrite Hp in E2.
  destruct (exec_bind_run w fetch_page
              (fun page_content : option string =>
                 match page_content with
                 | None | Some EmptyString => call (asyncio_sleep 60)
                 | Some html =>
                     product_info <- parse_page html ;;
                     match product_info with
                     | None => call (asyncio_sleep 60)
                     | Some info => after_parse info
                     end
                 end) _ _ _ E1) as [n1 En1].
  destruct (exec_bind_run w (parse_page (String c html))
              (fun product_info : option product_info =>
                 match product_info with
                 | None => call (asyncio_sleep 60)
                 | Some info => after_parse info
                 end) _ _ _ E2) as [n2 En2].
  exists (n1 + n2)%nat, (evs1 ++ evs2)%list. split.
  - destruct Q1 as [Q1a [Q1b Q1c]], Q2 as [Q2a [Q2b Q2c]].
    unfold quiet. rewrite !pick_app, Q1a, Q1b, Q1c, Q2a, Q2b, Q2c. repeat split.
  - rewrite exec_add. change loop_body with
      (bind fetch_page
         (fun page_content : option string =>
            match page_content with
            | None | Some EmptyString => call (asyncio_sleep 60)
            | Some html =>
                product_info <- parse_page html ;;
                match product_info with
                | None => call (asyncio_sleep 60)
                | Some info => after_parse info
                end
            end)).
    rewrite En1. cbn [fst snd]. rewrite En2. now rewrite add_events_app.
Qed.

Lemma chosen_message_new_maximum (rows : list product_info) (price : Z) :
  (forall r, In r rows -> new_price r < price) ->
  chosen_message rows price = NovoPrecoMaiorDetectado price.
Proof.
  intros Hlt. unfold chosen_message. destruct rows as [| r0 rows]; [reflexivity |].
  cbn. pose proof (Hlt _ (max_row_In r0 rows)) as Hm.
  destruct (Z.gtb_spec price (new_price (max_row r0 rows))); [reflexivity | lia].
Qed.

End Interleaving.

(** C10: in a turn whose fetch and parse succeed, there is a point,
    reached after finitely many calls, at which the notification has been
    sent and nothing has been written: the table is as the turn found it.
    From there the turn goes on to the write, when it is a successful
    turn; when every recorded price is below the new one, the text sent
    is the new-maximum one, for a price no row has at that point; and if
    the process is interrupted there, [main] ends with the connection
    closed and the table unchanged, the notification out. *)
Theorem notification_sent_before_append
        {R : Runtime} (w : world) (s : state) (info : product_info) :
  extracts w info ->
  (exists n,
     let p1 := fst (exec n w loop_body s) in
     let s1 := snd (exec n w loop_body s) in
     pick sent (new_events s s1) = [chosen_message (prices s) (new_price info)] /\
     pick written (new_events s s1) = [] /\
     prices s1 = prices s /\
     run w p1 s1 = run w loop_body s /\
     (successful w info ->
      exists later,
        trace (snd (run w loop_body s)) = (trace s1 ++ later)%list /\
        pick sent later = [] /\ pick written later = [info])) /\
  ((forall r, In r (prices s) -> new_price r < new_price info) ->
   chosen_message (prices s) (new_price info)
     = NovoPrecoMaiorDetectado (new_price info) /\
   forall r, In r (prices s) -> new_price r <> new_price info) /\
  (telegram_contained w -> storage w = Exc KeyboardInterrupt ->
   forall db,
     fst (main [w] db) = Some (Ok tt) /\
     closed (snd (main [w] db)) = true /\
     prices (snd (main [w] db)) = db /\
     pick sent (trace (snd (main [w] db))) = [chosen_message db (new_price info)] /\
     pick written (trace (snd (main [w] db))) = []).
Proof.
  intros Hx. split; [| split].
  - destruct (exec_to_after_parse w s info Hx) as [n [evs [[Qs [Qw Ql]] En]]].
    exists (n + 3)%nat. cbn zeta.
    rewrite exec_add, En. cbn [fst snd].
    rewrite exec_after_parse. tidy_trace.
    split; [| split; [| split; [| split]]].
    + now rewrite pick_app, Qs.
    + now rewrite pick_app, Qw.
    + reflexivity.
    + rewrite <- (run_exec n w loop_body s), En. cbn [fst snd].
      rewrite <- (run_exec 3 w (after_parse info) (add_events s evs)).
      now rewrite exec_after_parse, add_events_app.
    + intros [_ [Ht [Hst Hwk]]].
      exists (swallow_events w ++ persist_events w info)%list.
      rewrite <- (run_exec n w loop_body s), En. cbn [fst snd].
      rewrite (run_after_parse w (add_events s evs) info Ht), Hst. cbn [snd].
      tidy_trace. split; [| split].
      * cbn. now rewrite <- !app_assoc.
      * rewrite pick_app, pick_sent_persist.
        destruct (quiet_swallow w) as [-> _]. reflexivity.
      * rewrite pick_app, pick_written_persist, Hst.
        destruct (quiet_swallow w) as [_ [-> _]]. reflexivity.
  - intros Hlt. split; [now apply chosen_message_new_maximum |].
    intros r Hr. specialize (Hlt r Hr). lia.
  - intros Ht Hst db. unfold main. cbn zeta. cbn [while_True].
    destruct (turn_contained w (create_connection db) info Hx Ht) as [evs [[Qs [Qw Ql]] E]].
    rewrite E, Hst. unfold try_finally. run_calls.
    unfold record_event. tidy_trace.
    rewrite !pick_app, Qs, Qw. cbn [pick sent written app].
    rewrite !pick_app, pick_sent_persist, pick_written_persist, Hst.
    destruct (quiet_swallow w) as [-> [-> _]]. repeat split.
Qed.

(** A first turn, and the same turn interrupted in the database write. *)
Lemma notification_sent_before_append_witness :
  @extracts example_runtime (serving page_1000 "t1") (info_1000 "t1") /\
  (exists n,
     pick sent (trace (snd (exec n (serving page_1000 "t1")
                              (@loop_body example_runtime) fresh)))
     = [NovoPrecoMaiorDetectado 1000] /\
     prices (snd (exec n (serving page_1000 "t1")
                    (@loop_body example_runtime) fresh)) = []) /\
  prices (snd (@main example_runtime
                 [with_storage (serving page_1000 "t1") (Exc KeyboardInterrupt)] []))
  = [] /\
  pick sent (trace (snd (@main example_runtime
                 [with_storage (serving page_1000 "t1") (Exc KeyboardInterrupt)] [])))
  = [NovoPrecoMaiorDetectado 1000].
Proof.
  split; [apply extracts_1000 |]. split.
  - destruct (proj1 (@notification_sent_before_append example_runtime
                       (serving page_1000 "t1") fresh (info_1000 "t1")
                       (extracts_1000 "t1")))
      as [n [Hs [_ [Hp _]]]].
    exists n. split; [exact Hs | exact Hp].
  - assert (Hx : @extracts example_runtime
                   (with_storage (serving page_1000 "t1") (Exc KeyboardInterrupt))
                   (info_1000 "t1")).
    { exists (document_html page_1000). repeat split. vm_compute. discriminate. }
    destruct (proj2 (proj2 (@notification_sent_before_append example_runtime
                       (with_storage (serving page_1000 "t1") (Exc KeyboardInterrupt))
                       fresh (info_1000 "t1") Hx)) I eq_refl [])
      as [_ [_ [Hp [Hs _]]]].
    split; [exact Hp | exact Hs].
Defined.

(** ** The extractor *)

Lemma isdigit_value (c : ascii) : builtins.isdigit c = true -> 0 <= builtins.digit_value c.
Proof.
  unfold builtins.isdigit, builtins.digit_value. cbn zeta. intros H.
  apply andb_true_iff in H. destruct H as [H _]. apply N.leb_le in H.
  change 0 with (Z.of_N 48 - 48). apply Z.sub_le_mono_r. now apply N2Z.inj_le.
Qed.

Lemma scan_digits_nonneg (s : string) :
  forall prev_us digits acc digits' v rest,
    builtins.scan_digits prev_us digits acc s = Some (digits', v, rest) ->
    0 <= acc -> 0 <= v.
Proof.
  induction s as [| c s IH]; intros prev_us digits acc digits' v rest;
    cbn [builtins.scan_digits].
  - destruct prev_us; [discriminate |]. intros [= _ <- _]. auto.
  - destruct (builtins.isdigit c) eqn:Hd.
    + intros Hs Hacc. apply (IH _ _ _ _ _ _ Hs).
      pose proof (isdigit_value c Hd). lia.
    + destruct (Ascii.eqb c "_").
      * destruct prev_us; [discriminate |]. intros Hs Hacc. apply (IH _ _ _ _ _ _ Hs Hacc).
      * destruct prev_us; [discriminate |]. intros [= _ <- _]. auto.
Qed.

Lemma int_lstrip_contains (s : string) (c : ascii) :
  builtins.contains s c = false -> builtins.contains (builtins.int_lstrip s) c = false.
Proof.
  induction s as [| c' s IH]; cbn; [auto |]. intros H.
  apply orb_false_iff in H. destruct H as [H1 H2].
  destruct (builtins.int_isspace c'); [auto |]. cbn. now rewrite H1, H2.
Qed.

Lemma int_digits_sign (n : nat) (sign : Z) (s : string) (z : Z) :
  builtins.int_digits n sign s = Some z -> exists v, 0 <= v /\ z = sign * v.
Proof.
  unfold builtins.int_digits.
  destruct (builtins.startswith s "_"); [discriminate |].
  destruct (builtins.scan_digits false 0 0 s) as [[[digits v] rest] |] eqn:Hs;
    [| discriminate].
  destruct (Nat.eqb digits 0); [discriminate |].
  destruct (negb (builtins.all_int_space rest)); [discriminate |].
  match goal with |- (if ?b then _ else _) = _ -> _ => destruct b end;
    [discriminate |].
  intros [= <-]. exists v. split; [| reflexivity].
  apply (scan_digits_nonneg _ _ _ _ _ _ _ Hs). lia.
Qed.

Lemma startswith_contains (s : string) (c : ascii) :
  builtins.contains s c = false -> builtins.startswith s c = false.
Proof.
  destruct s as [| c' s]; cbn; [auto |]. intros H.
  now apply orb_false_iff in H.
Qed.

(** A text without a minus sign is no negative number. *)
Lemma int_nonneg (n : nat) (s : string) (z : Z) :
  builtins.int n s = Some z -> builtins.contains s "-" = false -> 0 <= z.
Proof.
  unfold builtins.int. cbn zeta. intros Hint Hc.
  apply int_lstrip_contains, startswith_contains in Hc. rewrite Hc in Hint.
  destruct (builtins.startswith (builtins.int_lstrip s) "+");
    apply int_digits_sign in Hint; destruct Hint as [v [Hv ->]]; lia.
Qed.

Section ExtractorFacts.

Context {R : Runtime}.

(** A record comes out only of a title and three numeric price texts. *)
Lemma parsed_Some_inv (w : world) (html : string) (info : product_info) :
  parsed w html = Ok (Some info) ->
  exists h e0 e1 e2 rest,
    find (BeautifulSoup html) "h1" "ui-pdp-title" = Some h /\
    find_all (BeautifulSoup html) "span" "andes-money-amount__fraction"
      = e0 :: e1 :: e2 :: rest /\
    builtins.int int_max_str_digits (price_text e0) = Some (old_price info) /\
    builtins.int int_max_str_digits (price_text e1) = Some (new_price info) /\
    builtins.int int_max_str_digits (price_text e2) = Some (installment_price info) /\
    product_name info = get_text_strip h /\
    timestamp info = clock w.
Proof.
  rewrite parsed_eq.
  destruct (find (BeautifulSoup html) "h1" "ui-pdp-title") as [h |]; [| discriminate].
  destruct (find_all (BeautifulSoup html) "span" "andes-money-amount__fraction")
    as [| e0 [| e1 [| e2 rest]]]; try discriminate.
  destruct (builtins.int int_max_str_digits (price_text e0)) as [a |] eqn:H0;
    [| discriminate].
  destruct (builtins.int int_max_str_digits (price_text e1)) as [b |] eqn:H1;
    [| discriminate].
  destruct (builtins.int int_max_str_digits (price_text e2)) as [c |] eqn:H2;
    [| discriminate].
  intros [= <-]. exists h, e0, e1, e2, rest. cbn. repeat split; assumption.
Qed.

Lemma parsed_Some_intro (w : world) (html : string)
      (h e0 e1 e2 : PageElement) (rest : list PageElement) (a b c : Z) :
  find (BeautifulSoup html) "h1" "ui-pdp-title" = Some h ->
  find_all (BeautifulSoup html) "span" "andes-money-amount__fraction"
    = e0 :: e1 :: e2 :: rest ->
  builtins.int int_max_str_digits (price_text e0) = Some a ->
  builtins.int int_max_str_digits (price_text e1) = Some b ->
  builtins.int int_max_str_digits (price_text e2) = Some c ->
  parsed w html =
  Ok (Some {| product_name := get_text_strip h; old_price := a; new_price := b;
              installment_price := c; timestamp := clock w |}).
Proof.
  intros Hh Hp H0 H1 H2. rewrite parsed_eq, Hh, Hp, H0, H1, H2. reflexivity.
Qed.

End ExtractorFacts.

(** C5: [parse_page] does not keep every failure of the parse from its
    caller.  The parser call sits in the [try] block, and the handler
    takes [AttributeError], [IndexError] and [ValueError] only: an
    exception of the parser that is none of the three, such as
    [ParserRejectedMarkup], leaves [parse_page] as it is, with nothing
    logged, no [None] returned and the table untouched.  On a text the
    parser reads, the function is [parse_page] on the document read. *)
Theorem rejected_markup_leaves_parse_page
        {R : Runtime} (parser : string -> outcome soup)
        (w : world) (html : string) (s : state) :
  (forall e,
     parser html = Exc e -> is_parse_error e = false ->
     run w (parse_page_markup parser html) s = (Exc e, s)) /\
  (forall e,
     parser html = Exc e -> is_parse_error e = true ->
     run w (parse_page_markup parser html) s
     = (Ok None, add_events s [Performed (logging_error (ErroAoParsear e)) (Ok tt)])) /\
  (parser html = Ok (BeautifulSoup html) ->
   run w (parse_page_markup parser html) s = run w (parse_page html) s).
Proof.
  unfold parse_page_markup, parse_page.
  split; [| split].
  - intros e -> He. cbn. rewrite He. reflexivity.
  - intros e -> He. cbn. rewrite He. reflexivity.
  - intros ->. reflexivity.
Qed.

(** A page that is the declaration ["<![1]>"] alone: the parser gives up,
    and so does [parse_page]; a page the parser reads is extracted. *)
Lemma rejected_markup_leaves_parse_page_witness :
  run (serving page_900 "t")
      (@parse_page_markup example_runtime (@rejecting_parser example_runtime) "<![1]>")
      fresh
  = (Exc ParserRejectedMarkup, fresh) /\
  fst (run (serving page_900 "t")
         (@parse_page_markup example_runtime (@rejecting_parser example_runtime)
            (document_html page_900))
         fresh)
  = Ok (Some (info_900 "t")).
Proof.
  split.
  - apply (proj1 (@rejected_markup_leaves_parse_page example_runtime
                    (@rejecting_parser example_runtime) (serving page_900 "t")
                    "<![1]>" fresh) ParserRejectedMarkup);
      reflexivity.
  - rewrite (proj2 (proj2 (@rejected_markup_leaves_parse_page example_runtime
                             (@rejecting_parser example_runtime) (serving page_900 "t")
                             (document_html page_900) fresh)));
      reflexivity.
Defined.

(** C7: price elements with the texts "1.234" and "2.000" are read as
    1234 and 2000: the dots are removed and the rest is parsed as an
    integer. *)
Theorem thousands_separators_removed
        {R : Runtime} (w : world) (html : string)
        (h e0 e1 e2 : PageElement) (rest : list PageElement) (c : Z) :
  find (BeautifulSoup html) "h1" "ui-pdp-title" = Some h ->
  find_all (BeautifulSoup html) "span" "andes-money-amount__fraction"
    = e0 :: e1 :: e2 :: rest ->
  get_text_strip e0 = "1.234" ->
  get_text_strip e1 = "2.000" ->
  builtins.int int_max_str_digits (price_text e2) = Some c ->
  price_text e0 = "1234" /\
  price_text e1 = "2000" /\
  builtins.int int_max_str_digits (price_text e0) = Some 1234 /\
  builtins.int int_max_str_digits (price_text e1) = Some 2000 /\
  parsed w html =
  Ok (Some {| product_name := get_text_strip h; old_price := 1234; new_price := 2000;
              installment_price := c; timestamp := clock w |}).
Proof.
  intros Hh Hp H0 H1 H2.
  assert (T0 : price_text e0 = "1234") by (unfold price_text; now rewrite H0).
  assert (T1 : price_text e1 = "2000") by (unfold price_text; now rewrite H1).
  assert (I0 : builtins.int int_max_str_digits (price_text e0) = Some 1234)
    by (rewrite T0; reflexivity).
  assert (I1 : builtins.int int_max_str_digits (price_text e1) = Some 2000)
    by (rewrite T1; reflexivity).
  repeat split; try assumption.
  apply (parsed_Some_intro w html h e0 e1 e2 rest 1234 2000 c Hh Hp I0 I1 H2).
Qed.

Lemma thousands_separators_removed_witness :
  @parsed example_runtime (serving page_1234 "2024-11-05 10:00:00")
    (document_html page_1234)
  = Ok (Some (info_1234 "2024-11-05 10:00:00")).
Proof.
  apply (@thousands_separators_removed example_runtime
           (serving page_1234 "2024-11-05 10:00:00") (document_html page_1234)
           (Tag "h1" ["ui-pdp-title"] [NavigableString "iPhone 16 Pro"])
           (Tag "span" ["andes-money-amount__fraction"] [NavigableString "1.234"])
           (Tag "span" ["andes-money-amount__fraction"] [NavigableString "2.000"])
           (Tag "span" ["andes-money-amount__fraction"] [NavigableString "200"])
           [] 200); reflexivity.
Defined.

(** ** C8: the sign of the prices *)

Section Ledger.

Context {R : Runtime}.

(** A turn leaves the table alone or appends the record it extracted. *)
Lemma turn_prices (w : world) (s : state) :
  prices (snd (run w loop_body s)) = prices s \/
  exists info,
    extracts w info /\ prices (snd (run w loop_body s)) = (prices s ++ [info])%list.
Proof.
  rewrite run_loop_body.
  destruct (run_fetch_page w s) as [evs1 [E1 _]]. rewrite E1.
  destruct (fetched w) as [[[| c html] |] | e] eqn:Hf;
    try (left; rewrite ?run_call; reflexivity).
  destruct (run_parse_page w (String c html) (add_events s evs1)) as [evs2 [E2 _]].
  rewrite E2.
  destruct (parsed w (String c html)) as [[info |] | e] eqn:Hp;
    try (left; rewrite ?run_call; reflexivity).
  assert (Hx : extracts w info) by (exists (String c html); now repeat split).
  destruct (telegram_cases w) as [Ht | [e [Ht He]]].
  - rewrite (run_after_parse w _ info Ht).
    destruct (storage w); [right; exists info; now split | now left].
  - rewrite (run_after_parse_interrupted w _ info e Ht He). now left.
Qed.

End Ledger.

(** C8, as stated, fails: a price element with the text "-5" gives the
    prior price -5, and the turn appends that record. *)
Lemma negative_price_recorded :
  @parsed example_runtime (serving page_negative "t") (document_html page_negative)
    = Ok (Some (info_negative "t")) /\
  old_price (info_negative "t") < 0 /\
  prices (snd (run (serving page_negative "t") (@loop_body example_runtime) fresh))
    = [info_negative "t"].
Proof. split; [reflexivity | split; [reflexivity | reflexivity]]. Qed.

(** C8, amended: the three price fields of every record the extractor
    returns are the integers its first three price texts denote, of
    either sign, and none is negative unless its text has a minus sign;
    the record has all its fields or is not there; and a turn appends
    nothing to the table or one such record. *)
Theorem extracted_prices_follow_texts {R : Runtime} (w : world) :
  (forall html info,
     parsed w html = Ok (Some info) ->
     exists e0 e1 e2 rest,
       find_all (BeautifulSoup html) "span" "andes-money-amount__fraction"
         = e0 :: e1 :: e2 :: rest /\
       builtins.int int_max_str_digits (price_text e0) = Some (old_price info) /\
       builtins.int int_max_str_digits (price_text e1) = Some (new_price info) /\
       builtins.int int_max_str_digits (price_text e2) = Some (installment_price info) /\
       (builtins.contains (price_text e0) "-" = false -> 0 <= old_price info) /\
       (builtins.contains (price_text e1) "-" = false -> 0 <= new_price info) /\
       (builtins.contains (price_text e2) "-" = false -> 0 <= installment_price info)) /\
  (forall html,
     parsed w html = Ok None \/ exists info, parsed w html = Ok (Some info)) /\
  (forall s,
     prices (snd (run w loop_body s)) = prices s \/
     exists html info,
       parsed w html = Ok (Some info) /\
       prices (snd (run w loop_body s)) = (prices s ++ [info])%list).
Proof.
  split; [| split].
  - intros html info Hp.
    destruct (parsed_Some_inv w html info Hp)
      as [h [e0 [e1 [e2 [rest [_ [Hall [H0 [H1 [H2 _]]]]]]]]]].
    exists e0, e1, e2, rest. repeat split; try assumption.
    + apply (int_nonneg _ _ _ H0).
    + apply (int_nonneg _ _ _ H1).
    + apply (int_nonneg _ _ _ H2).
  - intros html. rewrite parsed_eq.
    match goal with
    | |- Ok ?x = _ \/ _ => destruct x as [info |]; [right; now exists info | now left]
    end.
  - intros s. destruct (turn_prices w s) as [Hsame | [info [[html [_ [_ Hp]]] Happ]]].
    + now left.
    + right. now exists html, info.
Qed.

Lemma extracted_prices_follow_texts_witness :
  @parsed example_runtime (serving page_1234 "t") (document_html page_1234)
    = Ok (Some (info_1234 "t")) /\
  0 <= old_price (info_1234 "t").
Proof.
  split; [reflexivity |].
  destruct (proj1 (@extracted_prices_follow_texts example_runtime (serving page_1234 "t"))
              (document_html page_1234) (info_1234 "t") eq_refl)
    as [e0 [e1 [e2 [rest [Hall [_ [_ [_ [Hnn _]]]]]]]]].
  apply Hnn. injection Hall as <- _ _ _. reflexivity.
Defined.

(** ** C9: the price elements by position *)

(** C9: a record is extracted exactly from a title and three numeric
    price elements; the first price element found becomes [old_price],
    the second [new_price], the third [installment_price], and the record
    does not depend on the price elements after the third.  [new_price]
    is the value the turn compares with the maximum and notifies. *)
Theorem prices_mapped_by_position {R : Runtime} (w : world) (html : string) :
  (forall info,
     parsed w html = Ok (Some info) ->
     exists h e0 e1 e2 rest,
       find (BeautifulSoup html) "h1" "ui-pdp-title" = Some h /\
       find_all (BeautifulSoup html) "span" "andes-money-amount__fraction"
         = e0 :: e1 :: e2 :: rest /\
       builtins.int int_max_str_digits (price_text e0) = Some (old_price info) /\
       builtins.int int_max_str_digits (price_text e1) = Some (new_price info) /\
       builtins.int int_max_str_digits (price_text e2) = Some (installment_price info) /\
       product_name info = get_text_strip h /\
       timestamp info = clock w) /\
  (forall h e0 e1 e2 rest a b c,
     find (BeautifulSoup html) "h1" "ui-pdp-title" = Some h ->
     find_all (BeautifulSoup html) "span" "andes-money-amount__fraction"
       = e0 :: e1 :: e2 :: rest ->
     builtins.int int_max_str_digits (price_text e0) = Some a ->
     builtins.int int_max_str_digits (price_text e1) = Some b ->
     builtins.int int_max_str_digits (price_text e2) = Some c ->
     parsed w html =
     Ok (Some {| product_name := get_text_strip h; old_price := a; new_price := b;
                 installment_price := c; timestamp := clock w |})) /\
  (forall info s,
     fetched w = Ok (Some html) -> html <> "" -> parsed w html = Ok (Some info) ->
     pick sent (new_events s (snd (run w loop_body s)))
     = [chosen_message (prices s) (new_price info)]).
Proof.
  split; [| split].
  - intros info. apply parsed_Some_inv.
  - intros h e0 e1 e2 rest a b c. apply parsed_Some_intro.
  - intros info s Hf Hne Hp. apply turn_sent. now exists html.
Qed.

(** A page with a fourth price element that is no number. *)
Lemma prices_mapped_by_position_witness :
  @parsed example_runtime (serving page_four_prices "t") (document_html page_four_prices)
  = Ok (Some (info_1234 "t")) /\
  pick sent (new_events fresh
               (snd (run (serving page_four_prices "t")
                         (@loop_body example_runtime) fresh)))
  = [NovoPrecoMaiorDetectado 2000].
Proof.
  assert (Hp : @parsed example_runtime (serving page_four_prices "t")
                 (document_html page_four_prices) = Ok (Some (info_1234 "t"))).
  { apply (proj1 (proj2 (@prices_mapped_by_position example_runtime
                           (serving page_four_prices "t")
                           (document_html page_four_prices)))
             (Tag "h1" ["ui-pdp-title"] [NavigableString "iPhone 16 Pro"])
             (Tag "span" ["andes-money-amount__fraction"] [NavigableString "1.234"])
             (Tag "span" ["andes-money-amount__fraction"] [NavigableString "2.000"])
             (Tag "span" ["andes-money-amount__fraction"] [NavigableString "200"])
             [Tag "span" ["andes-money-amount__fraction"] [NavigableString "frete"]]
             1234 2000 200); reflexivity. }
  split; [exact Hp |].
  apply (proj2 (proj2 (@prices_mapped_by_position example_runtime
                         (serving page_four_prices "t")
                         (document_html page_four_prices)))
           (info_1234 "t") fresh); [reflexivity | | exact Hp].
  vm_compute. discriminate.
Defined.

(** * Further properties of the helpers and of whole runs *)

(** ** [fetch_page] *)

Lemma run_fetch_page_events (w : world) (s : state) :
  run w fetch_page s = (fetched w, add_events s (fetch_events w)).
Proof.
  unfold fetch_events. rewrite fetched_eq.
  unfold fetch_page, raise_for_status. run_calls.
  destruct (http w) as [response | e]; cbn.
  - destruct ((400 <=? status_code response) && (status_code response <? 600)); cbn;
      unfold record_event; tidy_trace; reflexivity.
  - destruct e; cbn; unfold record_event; tidy_trace; reflexivity.
Qed.

Lemma is_RequestException_true (e : exn) :
  is_RequestException e = true <-> e = RequestException.
Proof. destruct e; cbn; split; congruence. Qed.

(** X1: [fetch_page] makes one request, to the fixed URL, and leaves the
    connection alone.  It returns the body when the status is outside
    400..599, an empty body included; it returns [None] and logs the error
    when the request raises a [RequestException] or the status is an
    error status; any other exception of the request goes through,
    unlogged. *)
Theorem fetch_page_outcomes (w : world) (s : state) :
  let r := fst (run w fetch_page s) in
  let s' := snd (run w fetch_page s) in
  prices s' = prices s /\ closed s' = closed s /\
  pick requested (new_events s s') = [url] /\
  pick sent (new_events s s') = [] /\
  (forall response,
     http w = Ok response -> ~ (400 <= status_code response < 600) ->
     r = Ok (Some (text response)) /\ pick logged_error (new_events s s') = []) /\
  (forall response,
     http w = Ok response -> 400 <= status_code response < 600 ->
     r = Ok None /\
     pick logged_error (new_events s s') = [ErroAoBuscarPagina RequestException]) /\
  (http w = Exc RequestException ->
   r = Ok None /\
   pick logged_error (new_events s s') = [ErroAoBuscarPagina RequestException]) /\
  (forall e,
     http w = Exc e -> e <> RequestException ->
     r = Exc e /\ pick logged_error (new_events s s') = []).
Proof.
  cbn zeta. rewrite run_fetch_page_events. cbn [fst snd]. rewrite new_events_add.
  split; [reflexivity |]. split; [reflexivity |].
  unfold fetch_events. rewrite fetched_eq.
  split; [| split]; [| | split; [| split; [| split]]].
  - destruct (http w) as [response | e];
      [destruct ((400 <=? status_code response) && (status_code response <? 600))
      | destruct (is_RequestException e)]; reflexivity.
  - destruct (http w) as [response | e];
      [destruct ((400 <=? status_code response) && (status_code response <? 600))
      | destruct (is_RequestException e)]; reflexivity.
  - intros response -> Hst.
    destruct ((400 <=? status_code response) && (status_code response <? 600)) eqn:E.
    + apply andb_true_iff in E. destruct E as [E1 E2].
      apply Z.leb_le in E1. apply Z.ltb_lt in E2. lia.
    + split; reflexivity.
  - intros response -> Hst.
    destruct ((400 <=? status_code response) && (status_code response <? 600)) eqn:E.
    + split; reflexivity.
    + apply andb_false_iff in E. destruct E as [E | E];
        [apply Z.leb_gt in E | apply Z.ltb_ge in E]; lia.
  - intros ->. split; reflexivity.
  - intros e -> Hne. destruct (is_RequestException e) eqn:E.
    + apply is_RequestException_true in E. contradiction.
    + split; reflexivity.
Qed.

(** A server error, and an interrupt during the request. *)
Lemma fetch_page_outcomes_witness :
  fst (run (with_http (serving page_1234 "t")
              (Ok {| status_code := 503; text := "busy" |})) fetch_page fresh)
  = Ok None /\
  fst (run (with_http (serving page_1234 "t") (Exc KeyboardInterrupt)) fetch_page fresh)
  = Exc KeyboardInterrupt /\
  fst (run (with_http (serving page_1234 "t")
              (Ok {| status_code := 304; text := "" |})) fetch_page fresh)
  = Ok (Some "").
Proof.
  split; [| split].
  - apply (proj1 (proj2 (proj2 (proj2 (proj2 (proj2
             (fetch_page_outcomes
                (with_http (serving page_1234 "t")
                   (Ok {| status_code := 503; text := "busy" |})) fresh))))))
             {| status_code := 503; text := "busy" |}); [reflexivity | cbn; lia].
  - apply (proj2 (proj2 (proj2 (proj2 (proj2 (proj2 (proj2
             (fetch_page_outcomes
                (with_http (serving page_1234 "t") (Exc KeyboardInterrupt)) fresh)))))))
             KeyboardInterrupt); [reflexivity | discriminate].
  - apply (proj1 (proj2 (proj2 (proj2 (proj2
             (fetch_page_outcomes
                (with_http (serving page_1234 "t")
                   (Ok {| status_code := 304; text := "" |})) fresh)))))
             {| status_code := 304; text := "" |}); [reflexivity | cbn; lia].
Defined.

(** ** [save_to_database] and [get_max_price] *)

Lemma max_row_app (best : product_info) (rows : list product_info) (d : product_info) :
  max_row best (rows ++ [d]) =
  if new_price (max_row best rows) <? new_price d then d else max_row best rows.
Proof.
  revert best. induction rows as [| r rows IH]; intros best; cbn.
  - reflexivity.
  - apply IH.
Qed.

(** The maximum of a table with one more row. *)
Lemma select_max_app (rows : list product_info) (d : product_info) :
  select_max (rows ++ [d]) =
  match select_max rows with
  | (Some m, t) =>
      if m <? new_price d then (Some (new_price d), Some (timestamp d)) else (Some m, t)
  | (None, _) => (Some (new_price d), Some (timestamp d))
  end.
Proof.
  destruct rows as [| r rows]; cbn; [reflexivity |].
  rewrite max_row_app.
  destruct (new_price (max_row r rows) <? new_price d); reflexivity.
Qed.

Lemma run_save_to_database (w : world) (s : state) (d : product_info) :
  run w (save_to_database (Some d)) s =
  match storage w with
  | Ok _ => (Ok tt, add_events (set_prices s (prices s ++ [d]))
                      [Performed (to_sql_append d) (Ok tt)])
  | Exc e => (Exc e, add_events s [Performed (to_sql_append d) (Exc e)])
  end.
Proof.
  unfold save_to_database. run_calls.
  destruct (storage w) as [[] | e]; reflexivity.
Qed.

(** X2: [save_to_database] does nothing at all for [None].  For a record it
    makes one write: when the write succeeds the record is the new last
    row and every earlier row keeps its place; when it faults, the
    exception goes through and the table is as before. *)
Theorem save_to_database_outcomes (w : world) (s : state) :
  run w (save_to_database None) s = (Ok tt, s) /\
  (forall d,
     storage w = Ok tt ->
     let s' := snd (run w (save_to_database (Some d)) s) in
     fst (run w (save_to_database (Some d)) s) = Ok tt /\
     prices s' = (prices s ++ [d])%list /\
     nth_error (prices s') (length (prices s)) = Some d /\
     (forall i r, nth_error (prices s) i = Some r -> nth_error (prices s') i = Some r) /\
     pick written (new_events s s') = [d]) /\
  (forall d e,
     storage w = Exc e ->
     let s' := snd (run w (save_to_database (Some d)) s) in
     fst (run w (save_to_database (Some d)) s) = Exc e /\
     prices s' = prices s /\
     pick written (new_events s s') = []).
Proof.
  split; [reflexivity |]. split.
  - intros d Hst. cbn zeta. rewrite run_save_to_database, Hst. cbn [fst snd].
    rewrite new_events_set_prices. cbn [prices add_events set_prices].
    repeat split.
    + rewrite nth_error_app2, Nat.sub_diag; [reflexivity | lia].
    + intros i r Hi. rewrite nth_error_app1; [exact Hi |].
      apply nth_error_Some. congruence.
  - intros d e Hst. cbn zeta. rewrite run_save_to_database, Hst. cbn [fst snd].
    rewrite new_events_add. repeat split.
Qed.

Lemma save_to_database_outcomes_witness :
  prices (snd (run (serving page_1234 "t")
                 (save_to_database (Some (row_at "t4" 300)))
                 (create_connection three_rows)))
  = (three_rows ++ [row_at "t4" 300])%list /\
  prices (snd (run (with_storage (serving page_1234 "t")
                      (Exc (OtherException "OperationalError")))
                 (save_to_database (Some (row_at "t4" 300)))
                 (create_connection three_rows)))
  = three_rows.
Proof.
  split.
  - apply (proj1 (proj2 (save_to_database_outcomes (serving page_1234 "t")
                           (create_connection three_rows)))
             (row_at "t4" 300) eq_refl).
  - apply (proj2 (proj2 (save_to_database_outcomes
                           (with_storage (serving page_1234 "t")
                              (Exc (OtherException "OperationalError")))
                           (create_connection three_rows)))
             (row_at "t4" 300) (OtherException "OperationalError") eq_refl).
Defined.

(** X3: after a record has been saved, [get_max_price] returns the price and
    the timestamp of that record if the table was empty or its maximum
    was below the price, and what it returned before the save otherwise:
    on equal prices the earlier row keeps the answer. *)
Theorem get_max_price_after_save (w : world) (s : state) (d : product_info) :
  storage w = Ok tt ->
  fst (run w (save_to_database (Some d) ;; get_max_price) s) =
  match fst (run w get_max_price s) with
  | Ok (Some m, t) =>
      if m <? new_price d
      then Ok (Some (new_price d), Some (timestamp d))
      else Ok (Some m, t)
  | _ => Ok (Some (new_price d), Some (timestamp d))
  end.
Proof.
  intros Hst. rewrite run_bind, run_save_to_database, Hst, !run_get_max_price.
  cbn [fst prices add_events set_prices]. rewrite select_max_app.
  destruct (select_max (prices s)) as [[m |] t]; [| reflexivity].
  destruct (m <? new_price d); reflexivity.
Qed.

(** A higher price takes the answer, an equal one does not. *)
Lemma get_max_price_after_save_witness :
  fst (run (serving page_1234 "t")
         (save_to_database (Some (row_at "t4" 300)) ;; get_max_price)
         (create_connection three_rows))
  = Ok (Some 300, Some "t4") /\
  fst (run (serving page_1234 "t")
         (save_to_database (Some (row_at "t4" 250)) ;; get_max_price)
         (create_connection three_rows))
  = Ok (Some 250, Some "t2").
Proof.
  split.
  - rewrite (get_max_price_after_save (serving page_1234 "t")
               (create_connection three_rows) (row_at "t4" 300) eq_refl).
    reflexivity.
  - rewrite (get_max_price_after_save (serving page_1234 "t")
               (create_connection three_rows) (row_at "t4" 250) eq_refl).
    reflexivity.
Defined.

(** ** The notification against the rows of the table *)

Lemma chosen_message_cases (rows : list product_info) (p : Z) :
  ((forall r, In r rows -> new_price r < p) /\
   chosen_message rows p = NovoPrecoMaiorDetectado p) \/
  (exists r,
     In r rows /\ p <= new_price r /\
     (forall r', In r' rows -> new_price r' <= new_price r) /\
     chosen_message rows p = MaiorPrecoRegistrado (Some (new_price r)) (Some (timestamp r))).
Proof.
  unfold chosen_message. destruct rows as [| r0 rows]; cbn.
  - left. split; [intros r [] | reflexivity].
  - destruct (Z.gtb_spec p (new_price (max_row r0 rows))) as [Hgt | Hle].
    + left. split; [| reflexivity]. intros r Hr.
      pose proof (max_row_upper r0 rows r Hr). lia.
    + right. exists (max_row r0 rows). split; [apply max_row_In |].
      split; [exact Hle |]. split; [| reflexivity].
      intros r' Hr'. now apply max_row_upper.
Qed.

(** X4: the one notification of a turn that extracted [info] is the
    new-maximum text exactly when every price in the table is below the
    new price.  Otherwise it is the recorded-maximum text and carries the
    price and the timestamp of a row of the table whose price is the
    greatest there and at least the new price: its two holes are never
    [None]. *)
Theorem notification_reflects_rows
        {R : Runtime} (w : world) (s : state) (info : product_info) :
  extracts w info ->
  let ms := pick sent (new_events s (snd (run w loop_body s))) in
  (ms = [NovoPrecoMaiorDetectado (new_price info)] <->
   forall r, In r (prices s) -> new_price r < new_price info) /\
  ((exists r, In r (prices s) /\ new_price info <= new_price r) ->
   exists r,
     In r (prices s) /\ new_price info <= new_price r /\
     (forall r', In r' (prices s) -> new_price r' <= new_price r) /\
     ms = [MaiorPrecoRegistrado (Some (new_price r)) (Some (timestamp r))]).
Proof.
  intros Hx. cbn zeta. rewrite (turn_sent w s info Hx).
  destruct (chosen_message_cases (prices s) (new_price info))
    as [[Hall E] | [r [Hr [Hle [Hmax E]]]]]; rewrite E.
  - split; [split; [intros _; exact Hall | reflexivity] |].
    intros [r [Hr Hle]]. specialize (Hall r Hr). lia.
  - split.
    + split; [discriminate |]. intros Hall. specialize (Hall r Hr). lia.
    + intros _. exists r. repeat split; assumption.
Qed.

(** A turn at 900 on a table whose maximum is 250, and one at 100. *)
Lemma notification_reflects_rows_witness :
  pick sent (new_events (create_connection three_rows)
               (snd (run (serving page_900 "t4") (@loop_body example_runtime)
                         (create_connection three_rows))))
  = [NovoPrecoMaiorDetectado 900] /\
  exists r,
    In r [info_1000 "t1"] /\
    pick sent (new_events (create_connection [info_1000 "t1"])
                 (snd (run (serving page_900 "t2") (@loop_body example_runtime)
                           (create_connection [info_1000 "t1"]))))
    = [MaiorPrecoRegistrado (Some (new_price r)) (Some (timestamp r))].
Proof.
  split.
  - apply (proj1 (@notification_reflects_rows example_runtime (serving page_900 "t4")
                    (create_connection three_rows) (info_900 "t4") (extracts_900 "t4"))).
    intros r [<- | [<- | [<- | []]]]; reflexivity.
  - destruct (proj2 (@notification_reflects_rows example_runtime (serving page_900 "t2")
                       (create_connection [info_1000 "t1"]) (info_900 "t2")
                       (extracts_900 "t2")))
      as [r [Hr [_ [_ E]]]].
    + exists (info_1000 "t1"). split; [now left | cbn; lia].
    + exists r. split; [exact Hr | exact E].
Defined.

(** ** Every turn, case by case *)

Lemma fetch_events_calm (w : world) :
  quiet (fetch_events w) /\ pick requested (fetch_events w) = [url].
Proof.
  unfold fetch_events, quiet.
  destruct (fetched w) as [[html |] | e]; repeat split.
Qed.

Lemma pick_requested_notify (w : world) (s : state) (info : product_info) :
  pick requested (notify_events w s info) = [].
Proof. reflexivity. Qed.

Lemma pick_requested_swallow (w : world) : pick requested (swallow_events w) = [].
Proof. unfold swallow_events. destruct (telegram w); reflexivity. Qed.

Lemma pick_requested_persist (w : world) (info : product_info) :
  pick requested (persist_events w info) = [].
Proof. unfold persist_events. destruct (storage w); reflexivity. Qed.

Section TurnCases.

Context {R : Runtime}.

Lemma run_parse_page_calm (w : world) (html : string) (s : state) :
  exists evs,
    run w (parse_page html) s = (parsed w html, add_events s evs) /\
    quiet evs /\ pick requested evs = [].
Proof.
  unfold parsed, parse_page, get_text_of, getitem, int_of. cbn.
  destruct (find (BeautifulSoup html) "h1" "ui-pdp-title") as [h |]; cbn;
    [| eexists; split; [unfold perform, record_event; cbn; reflexivity | repeat split]].
  destruct (find_all (BeautifulSoup html) "span" "andes-money-amount__fraction")
    as [| e0 [| e1 [| e2 rest]]]; cbn;
    repeat (destruct (builtins.int _ _); cbn);
    eexists; (split; [unfold perform, record_event; cbn; tidy_trace; reflexivity
                     | repeat split]).
Qed.

Lemma parsed_returns (w : world) (html : string) :
  exists o, parsed w html = Ok o.
Proof. rewrite parsed_eq. eexists. reflexivity. Qed.

(** The five ways a turn can go, each with its result and its calls. *)
Lemma turn_cases (w : world) (s : state) :
  exists evs,
    quiet evs /\ pick requested evs = [url] /\
    ((exists e,
        http w = Exc e /\ e <> RequestException /\
        run w loop_body s = (Exc e, add_events s evs)) \/
     (extraction_failed w /\
      run w loop_body s =
      (wakeup w, add_events s (evs ++ [Performed (asyncio_sleep 60) (wakeup w)]))) \/
     (exists info e,
        extracts w info /\ telegram w = Exc e /\ is_Exception e = false /\
        run w loop_body s = (Exc e, add_events s (evs ++ notify_events w s info))) \/
     (exists info e,
        extracts w info /\ telegram_contained w /\ storage w = Exc e /\
        run w loop_body s =
        (Exc e, add_events s (evs ++ notify_events w s info ++ swallow_events w
                                  ++ [Performed (to_sql_append info) (Exc e)]))) \/
     (exists info,
        extracts w info /\ telegram_contained w /\ storage w = Ok tt /\
        run w loop_body s =
        (wakeup w,
         add_events (set_prices s (prices s ++ [info]))
           (evs ++ notify_events w s info ++ swallow_events w
                ++ [Performed (to_sql_append info) (Ok tt);
                    Performed (logging_info (DadosSalvos info)) (Ok tt);
                    Performed (asyncio_sleep 60) (wakeup w)])))).
Proof.
  rewrite run_loop_body, run_fetch_page_events.
  destruct (fetch_events_calm w) as [Q1 Rq1].
  destruct (fetched w) as [[[| c html] |] | e] eqn:Hf.
  - exists (fetch_events w). split; [exact Q1 |]. split; [exact Rq1 |].
    right; left. split; [right; now left |].
    rewrite run_call. cbn. unfold record_event. tidy_trace. reflexivity.
  - destruct (run_parse_page_calm w (String c html) (add_events s (fetch_events w)))
      as [evs2 [E2 [Q2 Rq2]]].
    rewrite E2. exists (fetch_events w ++ evs2)%list.
    assert (Q : quiet (fetch_events w ++ evs2)).
    { destruct Q1 as [Q1a [Q1b Q1c]], Q2 as [Q2a [Q2b Q2c]].
      unfold quiet. rewrite !pick_app, Q1a, Q1b, Q1c, Q2a, Q2b, Q2c. repeat split. }
    split; [exact Q |]. split; [now rewrite pick_app, Rq1, Rq2 |].
    destruct (parsed_returns w (String c html)) as [[info |] Hp]; rewrite Hp.
    + assert (Hx : extracts w info) by (exists (String c html); now repeat split).
      right; right.
      destruct (telegram_cases w) as [Ht | [e [Ht He]]].
      * right. rewrite (run_after_parse w _ info Ht).
        unfold persist_events.
        destruct (storage w) as [[] | e] eqn:Hst.
        -- right. exists info. repeat split; try assumption.
           tidy_trace. rewrite <- ?app_assoc. reflexivity.
        -- left. exists info, e. repeat split; try assumption.
           tidy_trace. rewrite <- ?app_assoc. reflexivity.
      * left. exists info, e. repeat split; try assumption.
        rewrite (run_after_parse_interrupted w _ info e Ht He).
        tidy_trace. rewrite <- ?app_assoc. reflexivity.
    + right; left. split; [right; right; now exists (String c html) |].
      rewrite run_call. cbn. unfold record_event. tidy_trace.
      rewrite <- ?app_assoc. reflexivity.
  - exists (fetch_events w). split; [exact Q1 |]. split; [exact Rq1 |].
    right; left. split; [now left |].
    rewrite run_call. cbn. unfold record_event. tidy_trace. reflexivity.
  - exists (fetch_events w). split; [exact Q1 |]. split; [exact Rq1 |].
    left. exists e. rewrite fetched_eq in Hf.
    destruct (http w) as [response | e'].
    + destruct ((400 <=? status_code response) && (status_code response <? 600));
        discriminate.
    + destruct e'; cbn in Hf; try discriminate; injection Hf as <-;
        repeat split; discriminate.
Qed.

End TurnCases.

Lemma pick_slept_notify_events (w : world) (s : state) (info : product_info) :
  pick slept (notify_events w s info) = [].
Proof. reflexivity. Qed.

Lemma pick_sent_swallow (w : world) : pick sent (swallow_events w) = [].
Proof. apply quiet_swallow. Qed.

Lemma pick_written_swallow (w : world) : pick written (swallow_events w) = [].
Proof. apply quiet_swallow. Qed.

Lemma pick_slept_swallow (w : world) : pick slept (swallow_events w) = [].
Proof. apply quiet_swallow. Qed.

Create Rewrite HintDb picks.
#[local] Hint Rewrite @pick_app
  pick_sent_notify pick_written_notify pick_slept_notify_events pick_requested_notify
  pick_sent_swallow pick_written_swallow pick_slept_swallow pick_requested_swallow
  : picks.

(** Rewrite the readings of the trace of a turn, given that its first
    stretch is quiet. *)
Ltac read_trace Qs Qw Ql Rq :=
  cbn [fst snd]; tidy_trace;
  autorewrite with picks; rewrite ?Qs, ?Qw, ?Ql, ?Rq;
  cbn [pick sent written slept requested app length].

(** ** What no turn does *)

(** X5: whatever the world answers, a turn makes one request, to the fixed
    URL; it sends at most one notification, sleeps at most once and then
    for 60; it leaves the rows of the table in place and adds at most one,
    by the one write it logs; it never closes the connection.  A turn
    that returns has the sleep as its last call. *)
Theorem turn_bounds {R : Runtime} (w : world) (s : state) :
  let s' := snd (run w loop_body s) in
  let evs := new_events s s' in
  closed s' = closed s /\
  (exists added,
     prices s' = (prices s ++ added)%list /\ pick written evs = added /\
     (length added <= 1)%nat) /\
  pick requested evs = [url] /\
  (length (pick sent evs) <= 1)%nat /\
  (pick slept evs = [] \/ pick slept evs = [60]) /\
  (fst (run w loop_body s) = Ok tt ->
   exists before,
     evs = (before ++ [Performed (asyncio_sleep 60) (Ok tt)])%list /\
     pick slept before = []).
Proof.
  cbn zeta.
  destruct (turn_cases w s)
    as [evs [[Qs [Qw Ql]] [Rq [[e [_ [_ E]]] | [[_ E] | [[info [e [_ [_ [_ E]]]]]
         | [[info [e [_ [_ [_ E]]]]] | [info [_ [_ [_ E]]]]]]]]]]];
    rewrite E; read_trace Qs Qw Ql Rq.
  - split; [reflexivity |].
    split; [exists []; rewrite app_nil_r; repeat split; auto |].
    split; [reflexivity |]. split; [auto |]. split; [now left | discriminate].
  - split; [reflexivity |].
    split; [exists []; rewrite app_nil_r; repeat split; auto |].
    split; [reflexivity |]. split; [auto |]. split; [now right |].
    intros ->. exists evs. split; [reflexivity | exact Ql].
  - split; [reflexivity |].
    split; [exists []; rewrite app_nil_r; repeat split; auto |].
    split; [reflexivity |]. split; [auto |]. split; [now left | discriminate].
  - split; [reflexivity |].
    split; [exists []; rewrite app_nil_r; repeat split; auto |].
    split; [reflexivity |]. split; [auto |]. split; [now left | discriminate].
  - split; [reflexivity |].
    split; [exists [info]; repeat split; auto |].
    split; [reflexivity |]. split; [auto |]. split; [now right |].
    intros ->.
    exists (evs ++ notify_events w s info ++ swallow_events w
                ++ [Performed (to_sql_append info) (Ok tt);
                    Performed (logging_info (DadosSalvos info)) (Ok tt)])%list.
    split; [rewrite <- !app_assoc; reflexivity |].
    autorewrite with picks. rewrite Ql. reflexivity.
Qed.

(** A successful turn and a turn whose request is interrupted. *)
Lemma turn_bounds_witness :
  (exists before,
     new_events fresh (snd (run (serving page_1000 "t1")
                              (@loop_body example_runtime) fresh))
     = (before ++ [Performed (asyncio_sleep 60) (Ok tt)])%list /\
     pick slept before = []) /\
  pick slept (new_events fresh
                (snd (run (with_http (serving page_1000 "t1") (Exc KeyboardInterrupt))
                          (@loop_body example_runtime) fresh)))
  = [].
Proof.
  split.
  - apply (@turn_bounds example_runtime (serving page_1000 "t1") fresh).
    reflexivity.
  - destruct (proj1 (proj2 (proj2 (proj2 (proj2
                (@turn_bounds example_runtime
                   (with_http (serving page_1000 "t1") (Exc KeyboardInterrupt))
                   fresh))))))
      as [E | E]; [exact E | discriminate E].
Defined.

(** ** Leaving the loop *)

Lemma run_epilogue (w : world) (e : exn) (s : state) :
  run w (epilogue e) s =
  if is_KeyboardInterrupt e
  then (Ok tt,
        add_events (set_closed s)
          [Performed (logging_info ParandoExecucao) (Ok tt);
           Performed conn_close (Ok tt)])
  else (Exc e, add_events (set_closed s) [Performed conn_close (Ok tt)]).
Proof.
  unfold epilogue, try_finally.
  destruct e; run_calls; unfold record_event, add_events, set_closed; cbn;
    rewrite <- ?app_assoc; reflexivity.
Qed.

Lemma main_eq {R : Runtime} (ws : list world) (db : list product_info) :
  main ws db =
  match while_True ws (create_connection db) with
  | Polling s => (None, s)
  | Escaped e w s => (Some (fst (run w (epilogue e) s)), snd (run w (epilogue e) s))
  end.
Proof.
  unfold main, epilogue. cbn zeta.
  destruct (while_True ws (create_connection db)) as [s | e w s]; [reflexivity |].
  match goal with |- (let '(r, s') := ?x in _) = _ => destruct x end. reflexivity.
Qed.

(** X7: a fault of the database write is not handled anywhere: the turn ends
    there, after its notification and before its sleep, the later turns
    never run, and [main] closes the connection and raises the same
    exception, or returns if it was a [KeyboardInterrupt].  The table is
    as it was. *)
Theorem storage_fault_stops_main
        {R : Runtime} (w : world) (info : product_info) (e : exn)
        (ws : list world) (db : list product_info) :
  extracts w info -> telegram_contained w -> storage w = Exc e ->
  fst (main (w :: ws) db) = Some (if is_KeyboardInterrupt e then Ok tt else Exc e) /\
  closed (snd (main (w :: ws) db)) = true /\
  prices (snd (main (w :: ws) db)) = db /\
  pick sent (trace (snd (main (w :: ws) db))) = [chosen_message db (new_price info)] /\
  pick written (trace (snd (main (w :: ws) db))) = [] /\
  pick slept (trace (snd (main (w :: ws) db))) = [].
Proof.
  intros Hx Ht Hst. rewrite main_eq. cbn [while_True].
  destruct (turn_contained w (create_connection db) info Hx Ht) as [evs [[Qs [Qw Ql]] E]].
  rewrite E, Hst, run_epilogue.
  destruct (is_KeyboardInterrupt e); cbn [fst snd closed prices trace add_events
                                            set_closed create_connection app];
    autorewrite with picks;
    rewrite Qs, Qw, Ql, pick_sent_persist, pick_written_persist, Hst;
    unfold persist_events; rewrite Hst; repeat split.
Qed.

(** A disk-full error on the first turn, with two more turns waiting. *)
Lemma storage_fault_stops_main_witness :
  fst (@main example_runtime
         [with_storage (serving page_1000 "t1") (Exc (OtherException "OperationalError"));
          serving page_900 "t2"; serving page_1500 "t3"] three_rows)
  = Some (Exc (OtherException "OperationalError")) /\
  prices (snd (@main example_runtime
         [with_storage (serving page_1000 "t1") (Exc (OtherException "OperationalError"));
          serving page_900 "t2"; serving page_1500 "t3"] three_rows))
  = three_rows.
Proof.
  assert (Hx : @extracts example_runtime
                 (with_storage (serving page_1000 "t1")
                    (Exc (OtherException "OperationalError")))
                 (info_1000 "t1")).
  { exists (document_html page_1000). repeat split. vm_compute. discriminate. }
  destruct (@storage_fault_stops_main example_runtime
              (with_storage (serving page_1000 "t1")
                 (Exc (OtherException "OperationalError")))
              (info_1000 "t1") (OtherException "OperationalError")
              [serving page_900 "t2"; serving page_1500 "t3"] three_rows
              Hx I eq_refl)
    as [Hr [_ [Hp _]]].
  split; [exact Hr | exact Hp].
Defined.

(** ** Turns in a row *)

Lemma new_events_trace (s s' : state) (evs : list event) :
  trace s' = (trace s ++ evs)%list -> new_events s s' = evs.
Proof.
  intros E. unfold new_events. rewrite E, skipn_app, skipn_all, Nat.sub_diag.
  reflexivity.
Qed.

Lemma notifications_app (rows a b : list product_info) :
  notifications rows (a ++ b) =
  (notifications rows a ++ notifications (rows ++ a) b)%list.
Proof.
  revert rows. induction a as [| info a IH]; intros rows; cbn.
  - now rewrite app_nil_r.
  - rewrite IH, <- app_assoc. reflexivity.
Qed.

Lemma observations_app (a b : list (option product_info)) :
  observations (a ++ b) = (observations a ++ observations b)%list.
Proof. unfold observations. apply flat_map_app. Qed.

Section Runs.

Context {R : Runtime}.

Lemma while_True_app (ws1 ws2 : list world) (s : state) :
  while_True (ws1 ++ ws2) s =
  match while_True ws1 s with
  | Polling s1 => while_True ws2 s1
  | Escaped e w s1 => Escaped e w s1
  end.
Proof.
  revert s. induction ws1 as [| w ws1 IH]; intros s; cbn [while_True app].
  - reflexivity.
  - destruct (run w loop_body s) as [[[] | e] s1]; [apply IH | reflexivity].
Qed.

(** A turn up to its sleep: what it leaves, and what it sent and wrote. *)
Lemma turn_to_sleep (w : world) (o : option product_info) (s : state) :
  reaches_sleep w o ->
  exists s1 evs,
    run w loop_body s = (wakeup w, s1) /\
    prices s1 = (prices s ++ observations [o])%list /\
    closed s1 = closed s /\
    trace s1 = (trace s ++ evs)%list /\
    pick sent evs = notifications (prices s) (observations [o]) /\
    pick written evs = observations [o] /\
    pick slept evs = [60].
Proof.
  destruct o as [info |]; cbn [reaches_sleep observations flat_map app notifications].
  - intros [Hx [Ht Hst]].
    destruct (turn_contained w s info Hx Ht) as [evs [[Qs [Qw Ql]] E]].
    rewrite Hst in E. eexists. eexists. split; [exact E |].
    cbn [prices closed trace add_events set_prices].
    repeat split; autorewrite with picks;
      rewrite ?Qs, ?Qw, ?Ql, ?pick_sent_persist, ?pick_written_persist,
        ?Hst; try reflexivity.
    unfold persist_events. rewrite Hst. reflexivity.
  - intros Hfail.
    destruct (turn_failed w s Hfail) as [evs [[Qs [Qw Ql]] E]].
    rewrite run_call in E. cbn in E. unfold record_event in E.
    rewrite add_events_app in E.
    eexists. eexists. split; [exact E |].
    cbn [prices closed trace add_events].
    repeat split; autorewrite with picks; rewrite ?Qs, ?Qw, ?Ql, ?app_nil_r;
      reflexivity.
Qed.

Lemma turn_yields_reaches_sleep (w : world) (o : option product_info) :
  turn_yields w o -> reaches_sleep w o /\ wakeup w = Ok tt.
Proof.
  destruct o as [info |]; cbn.
  - intros [Hx [Ht [Hst Hwk]]]. repeat split; assumption.
  - intros [Hf Hwk]. now split.
Qed.

Lemma while_True_yields (ws : list world) (os : list (option product_info)) (s : state) :
  Forall2 turn_yields ws os ->
  exists s' evs,
    while_True ws s = Polling s' /\
    prices s' = (prices s ++ observations os)%list /\
    closed s' = closed s /\
    trace s' = (trace s ++ evs)%list /\
    pick sent evs = notifications (prices s) (observations os) /\
    pick written evs = observations os /\
    pick slept evs = repeat 60 (length ws).
Proof.
  intros HF. revert s.
  induction HF as [| w o ws os Hw HF IH]; intros s; cbn [while_True].
  - exists s, []. cbn. rewrite !app_nil_r. repeat split.
  - destruct (turn_yields_reaches_sleep w o Hw) as [Hr Hwk].
    destruct (turn_to_sleep w o s Hr) as [s1 [evs1 [E [Hp [Hc [Ht [Hs [Hwr Hsl]]]]]]]].
    rewrite E, Hwk.
    destruct (IH s1) as [s' [evs [E' [Hp' [Hc' [Ht' [Hs' [Hwr' Hsl']]]]]]]].
    exists s', (evs1 ++ evs)%list. split; [exact E' |].
    change (o :: os) with ([o] ++ os)%list. rewrite observations_app.
    split; [rewrite Hp', Hp; now rewrite app_assoc |].
    split; [congruence |].
    split; [rewrite Ht', Ht; now rewrite app_assoc |].
    rewrite !pick_app, Hs, Hwr, Hsl, Hs', Hwr', Hsl', Hp, notifications_app.
    repeat split.
Qed.

End Runs.

(** X8: over turns that each come to their sleep and wake up again,
    successful or with a failed fetch or parse, the loop keeps turning;
    the table grows by exactly the extracted records, in order, each
    written once; the notifications sent are, in order, those chosen for
    each record against the table as it stood then; and there is one
    sleep of 60 per turn. *)
Theorem turns_append_and_notify
        {R : Runtime} (ws : list world) (os : list (option product_info)) (s : state) :
  Forall2 turn_yields ws os ->
  exists s',
    while_True ws s = Polling s' /\
    prices s' = (prices s ++ observations os)%list /\
    pick written (new_events s s') = observations os /\
    pick sent (new_events s s') = notifications (prices s) (observations os) /\
    pick slept (new_events s s') = repeat 60 (length ws).
Proof.
  intros HF.
  destruct (while_True_yields ws os s HF) as [s' [evs [E [Hp [_ [Ht [Hs [Hw Hsl]]]]]]]].
  exists s'. rewrite (new_events_trace s s' evs Ht). repeat split; assumption.
Qed.

Example turn_yields_unpriced (now : string) :
  @turn_yields example_runtime (serving page_unpriced now) None.
Proof.
  split; [| reflexivity]. right; right.
  exists (document_html page_unpriced). split; reflexivity.
Qed.

(** Four turns, the second on a page without a numeric price. *)
Lemma turns_append_and_notify_witness :
  exists s',
    @while_True example_runtime
      [serving page_1000 "t1"; serving page_unpriced "t2";
       serving page_900 "t3"; serving page_1500 "t4"] fresh = Polling s' /\
    prices s' = [info_1000 "t1"; info_900 "t3"; info_1500 "t4"] /\
    pick sent (new_events fresh s')
    = [NovoPrecoMaiorDetectado 1000;
       MaiorPrecoRegistrado (Some 1000) (Some "t1");
       NovoPrecoMaiorDetectado 1500] /\
    pick slept (new_events fresh s') = [60; 60; 60; 60].
Proof.
  destruct (@turns_append_and_notify example_runtime
              [serving page_1000 "t1"; serving page_unpriced "t2";
               serving page_900 "t3"; serving page_1500 "t4"]
              [Some (info_1000 "t1"); None; Some (info_900 "t3"); Some (info_1500 "t4")]
              fresh)
    as [s' [E [Hp [_ [Hs Hsl]]]]].
  - apply Forall2_cons; [apply (successful_1000 "t1") |].
    apply Forall2_cons; [apply (turn_yields_unpriced "t2") |].
    apply Forall2_cons; [split; [apply extracts_900 | repeat split] |].
    apply Forall2_cons; [apply (successful_1500 "t4") | apply Forall2_nil].
  - exists s'. repeat split; assumption.
Defined.

(** ** No alert twice *)

Lemma alerts_notifications (infos rows : list product_info) :
  StronglySorted Z.lt (alerts (notifications rows infos)) /\
  (forall p, In p (alerts (notifications rows infos)) ->
             (forall r, In r rows -> new_price r < p) /\
             exists info, In info infos /\ new_price info = p).
Proof.
  revert rows. induction infos as [| info infos IH]; intros rows; cbn.
  - split; [constructor | intros p []].
  - destruct (IH (rows ++ [info])%list) as [Hsorted Hall].
    destruct (chosen_message_cases rows (new_price info))
      as [[Hlt E] | [r0 [_ [_ [_ E]]]]]; rewrite E; cbn.
    + split.
      * constructor; [exact Hsorted |]. apply Forall_forall. intros q Hq.
        destruct (Hall q Hq) as [Hq' _]. apply (Hq' info).
        apply in_or_app. right. now left.
      * intros p [<- | Hp].
        -- split; [exact Hlt | exists info; split; [now left | reflexivity]].
        -- destruct (Hall p Hp) as [Hrows [i [Hi Hpi]]]. split.
           ++ intros r Hr. apply Hrows. apply in_or_app. now left.
           ++ exists i. split; [now right | exact Hpi].
    + split; [exact Hsorted |]. intros p Hp.
      destruct (Hall p Hp) as [Hrows [i [Hi Hpi]]]. split.
      * intros r Hr. apply Hrows. apply in_or_app. now left.
      * exists i. split; [now right | exact Hpi].
Qed.

(** X9: over turns that each come to their sleep and wake up again, the
    prices announced as new maxima go strictly up, so none is announced
    twice; each is above every price the table held at the start, and
    each is the price of a record extracted in one of these turns. *)
Theorem alerts_strictly_increase
        {R : Runtime} (ws : list world) (os : list (option product_info))
        (s s' : state) :
  Forall2 turn_yields ws os ->
  while_True ws s = Polling s' ->
  StronglySorted Z.lt (alerts (pick sent (new_events s s'))) /\
  (forall p, In p (alerts (pick sent (new_events s s'))) ->
             (forall r, In r (prices s) -> new_price r < p) /\
             exists info, In info (observations os) /\ new_price info = p).
Proof.
  intros HF E.
  destruct (while_True_yields ws os s HF) as [s'' [evs [E' [_ [_ [Ht [Hs _]]]]]]].
  rewrite E in E'. injection E' as <-.
  rewrite (new_events_trace s s' evs Ht), Hs.
  apply alerts_notifications.
Qed.

(** The same page twice: the second turn announces nothing. *)
Lemma alerts_strictly_increase_witness :
  exists s',
    @while_True example_runtime [serving page_1000 "t1"; serving page_1000 "t2"] fresh
    = Polling s' /\
    alerts (pick sent (new_events fresh s')) = [1000] /\
    StronglySorted Z.lt (alerts (pick sent (new_events fresh s'))).
Proof.
  assert (HF : Forall2 (@turn_yields example_runtime)
                 [serving page_1000 "t1"; serving page_1000 "t2"]
                 [Some (info_1000 "t1"); Some (info_1000 "t2")]).
  { apply Forall2_cons; [apply (successful_1000 "t1") |].
    apply Forall2_cons; [apply (successful_1000 "t2") | apply Forall2_nil]. }
  eexists. split; [vm_compute; reflexivity |]. split; [vm_compute; reflexivity |].
  apply (@alerts_strictly_increase example_runtime _ _ fresh _ HF).
  vm_compute. reflexivity.
Defined.

(** ** Stopping and starting again *)

(** X10: when the sleep of a turn is cut short by an exception, after
    turns that each came to their sleep and woke up, [main] closes the
    connection and lets the exception through, as it does for the
    [CancelledError] an interrupt brings there; only a
    [KeyboardInterrupt] makes it return instead.  Every extracted record
    is in the table, the one of the interrupted turn included, and the
    turns after it never run.  [main] started again on that table goes
    on as if it had not stopped: the two runs together leave the rows
    and send the notifications of one run over all the turns. *)
Theorem interrupt_in_sleep_loses_nothing
        {R : Runtime} (ws1 : list world) (os1 : list (option product_info))
        (w : world) (o : option product_info) (e : exn) (rest : list world)
        (ws2 : list world) (os2 : list (option product_info))
        (db : list product_info) :
  Forall2 turn_yields ws1 os1 ->
  interrupted_asleep w o e ->
  Forall2 turn_yields ws2 os2 ->
  let stopped := main (ws1 ++ w :: rest) db in
  let restarted := main ws2 (prices (snd stopped)) in
  fst stopped = Some (if is_KeyboardInterrupt e then Ok tt else Exc e) /\
  (e = CancelledError -> fst stopped = Some (Exc CancelledError)) /\
  closed (snd stopped) = true /\
  prices (snd stopped) = (db ++ observations (os1 ++ [o]))%list /\
  pick slept (trace (snd stopped)) = repeat 60 (length ws1 + 1) /\
  fst restarted = None /\
  prices (snd restarted) = (db ++ observations (os1 ++ [o] ++ os2))%list /\
  (pick sent (trace (snd stopped)) ++ pick sent (trace (snd restarted)))%list
  = notifications db (observations (os1 ++ [o] ++ os2)).
Proof.
  intros HF1 [Hr Hwk] HF2. cbn zeta.
  assert (Hstop : exists s2,
             main (ws1 ++ w :: rest) db
             = (Some (if is_KeyboardInterrupt e then Ok tt else Exc e), s2) /\
             closed s2 = true /\
             prices s2 = (db ++ observations (os1 ++ [o]))%list /\
             pick sent (trace s2) = notifications db (observations (os1 ++ [o])) /\
             pick slept (trace s2) = repeat 60 (length ws1 + 1)).
  { rewrite main_eq, while_True_app.
    destruct (while_True_yields ws1 os1 (create_connection db) HF1)
      as [s1 [evs1 [E1 [Hp1 [_ [Ht1 [Hs1 [_ Hl1]]]]]]]].
    rewrite E1. cbn [while_True].
    destruct (turn_to_sleep w o s1 Hr) as [s2 [evs2 [E2 [Hp2 [_ [Ht2 [Hs2 [_ Hl2]]]]]]]].
    rewrite E2, Hwk, run_epilogue.
    assert (Hprices : prices s2 = (db ++ observations (os1 ++ [o]))%list).
    { rewrite observations_app, Hp2, Hp1. cbn [prices create_connection].
      now rewrite app_assoc. }
    assert (Hsent : pick sent (trace s2)
                    = notifications db (observations (os1 ++ [o]))).
    { rewrite observations_app, notifications_app, Ht2, Ht1.
      cbn [trace create_connection app].
      rewrite !pick_app, Hs1, Hs2, Hp1. reflexivity. }
    assert (Hslept : pick slept (trace s2) = repeat 60 (length ws1 + 1)).
    { rewrite Ht2, Ht1. cbn [trace create_connection app].
      rewrite !pick_app, Hl1, Hl2, repeat_app. reflexivity. }
    destruct (is_KeyboardInterrupt e); cbn [fst snd];
      eexists; (split; [reflexivity |]);
      cbn [closed prices trace add_events set_closed];
      rewrite !pick_app, Hsent, Hslept; cbn [pick sent slept];
      rewrite !app_nil_r; repeat split; assumption. }
  destruct Hstop as [s2 [Em [Hc [Hp [Hs Hl]]]]]. rewrite Em. cbn [fst snd].
  split; [reflexivity |]. split; [intros ->; reflexivity |].
  split; [exact Hc |]. split; [exact Hp |]. split; [exact Hl |].
  rewrite main_eq.
  destruct (while_True_yields ws2 os2 (create_connection (prices s2)) HF2)
    as [s3 [evs3 [E3 [Hp3 [_ [Ht3 [Hs3 _]]]]]]].
  rewrite E3. cbn [fst snd]. split; [reflexivity |].
  cbn [prices trace create_connection app] in Hp3, Ht3, Hs3.
  rewrite Hp3, Ht3, Hs3, Hs, Hp.
  replace (os1 ++ [o] ++ os2)%list with ((os1 ++ [o]) ++ os2)%list
    by now rewrite <- app_assoc.
  rewrite (observations_app (os1 ++ [o]) os2), notifications_app.
  split; [now rewrite app_assoc | reflexivity].
Qed.

Example cancelled_asleep_900 (now : string) :
  @interrupted_asleep example_runtime
    (with_wakeup (serving page_900 now) (Exc CancelledError)) (Some (info_900 now))
    CancelledError.
Proof.
  split; [| reflexivity]. split; [| split; reflexivity].
  exists (document_html page_900). repeat split. vm_compute. discriminate.
Qed.

(** Cancelled in the sleep of the second turn, started again for a
    third. *)
Lemma interrupt_in_sleep_loses_nothing_witness :
  fst (@main example_runtime
         [serving page_1000 "t1";
          with_wakeup (serving page_900 "t2") (Exc CancelledError);
          serving page_1500 "never"] [])
  = Some (Exc CancelledError) /\
  prices (snd (@main example_runtime
                 [serving page_1000 "t1";
                  with_wakeup (serving page_900 "t2") (Exc CancelledError);
                  serving page_1500 "never"] []))
  = [info_1000 "t1"; info_900 "t2"] /\
  prices (snd (@main example_runtime [serving page_1500 "t3"]
                 [info_1000 "t1"; info_900 "t2"]))
  = [info_1000 "t1"; info_900 "t2"; info_1500 "t3"].
Proof.
  destruct (@interrupt_in_sleep_loses_nothing example_runtime
              [serving page_1000 "t1"] [Some (info_1000 "t1")]
              (with_wakeup (serving page_900 "t2") (Exc CancelledError))
              (Some (info_900 "t2")) CancelledError [serving page_1500 "never"]
              [serving page_1500 "t3"] [Some (info_1500 "t3")] [])
    as [Hr [_ [_ [Hp [_ [_ [Hp' _]]]]]]].
  - apply Forall2_cons; [apply (successful_1000 "t1") | apply Forall2_nil].
  - apply cancelled_asleep_900.
  - apply Forall2_cons; [apply (successful_1500 "t3") | apply Forall2_nil].
  - split; [exact Hr |]. split; [exact Hp |]. rewrite Hp in Hp'. exact Hp'.
Defined.

(** ** [main], whatever happens *)

Section MainInvariants.

Context {R : Runtime}.

Lemma turn_step (w : world) (s : state) :
  exists added evs,
    prices (snd (run w loop_body s)) = (prices s ++ added)%list /\
    closed (snd (run w loop_body s)) = closed s /\
    trace (snd (run w loop_body s)) = (trace s ++ evs)%list /\
    pick written evs = added /\
    (length added <= 1)%nat /\
    (length (pick sent evs) <= 1)%nat.
Proof.
  destruct (turn_cases w s)
    as [evs [[Qs [Qw Ql]] [Rq [[e [_ [_ E]]] | [[_ E] | [[info [e [_ [_ [_ E]]]]]
         | [[info [e [_ [_ [_ E]]]]] | [info [_ [_ [_ E]]]]]]]]]]];
    rewrite E; cbn [snd prices closed trace add_events set_prices].
  1-4: exists []; eexists; rewrite app_nil_r;
       (split; [reflexivity |]); (split; [reflexivity |]); (split; [reflexivity |]);
       autorewrite with picks; rewrite ?Qs, ?Qw;
       cbn [pick sent written app length]; repeat split; auto.
  exists [info]. eexists.
  split; [reflexivity |]. split; [reflexivity |]. split; [reflexivity |].
  autorewrite with picks. rewrite ?Qs, ?Qw.
  cbn [pick sent written app length]. repeat split; auto.
Qed.

Lemma while_True_any (ws : list world) (s : state) :
  exists added evs,
    prices (state_of (while_True ws s)) = (prices s ++ added)%list /\
    closed (state_of (while_True ws s)) = closed s /\
    trace (state_of (while_True ws s)) = (trace s ++ evs)%list /\
    pick written evs = added /\
    (length added <= length ws)%nat /\
    (length (pick sent evs) <= length ws)%nat.
Proof.
  revert s. induction ws as [| w ws IH]; intros s; cbn [while_True].
  - exists [], []. cbn. rewrite !app_nil_r. repeat split; auto.
  - destruct (turn_step w s) as [a1 [evs1 [Hp1 [Hc1 [Ht1 [Hw1 [La1 Ls1]]]]]]].
    destruct (run w loop_body s) as [[[] | e] s1]; cbn [snd] in *.
    + destruct (IH s1) as [a2 [evs2 [Hp2 [Hc2 [Ht2 [Hw2 [La2 Ls2]]]]]]].
      exists (a1 ++ a2)%list, (evs1 ++ evs2)%list.
      rewrite Hp2, Hc2, Ht2, Hp1, Hc1, Ht1, !pick_app, Hw1, Hw2, <- !app_assoc,
        !length_app.
      cbn [length]. repeat split; lia.
    + exists a1, evs1. cbn [state_of length]. repeat split; try assumption; lia.
Qed.

End MainInvariants.

(** X11: for every finite stretch of turns and whatever the world answers
    in them, [main] leaves the rows the table had in place and adds at
    most one row per turn, each by a write of the trace; it sends at most
    one notification per turn.  While the loop turns the connection is
    open and [main] has not ended.  Once an exception has left the loop,
    the connection is closed and the table is as the loop left it; [main]
    returns if that exception is a [KeyboardInterrupt], which it logs,
    and raises that same exception otherwise: it returns only after a
    [KeyboardInterrupt]. *)
Theorem main_appends_and_closes
        {R : Runtime} (ws : list world) (db : list product_info) :
  (exists added,
     prices (snd (main ws db)) = (db ++ added)%list /\
     pick written (trace (snd (main ws db))) = added /\
     (length added <= length ws)%nat) /\
  (length (pick sent (trace (snd (main ws db)))) <= length ws)%nat /\
  (fst (main ws db) = None -> closed (snd (main ws db)) = false) /\
  (forall o,
     fst (main ws db) = Some o ->
     closed (snd (main ws db)) = true /\
     (o = Ok tt \/ exists e, o = Exc e /\ e <> KeyboardInterrupt)) /\
  (forall s,
     while_True ws (create_connection db) = Polling s ->
     main ws db = (None, s)) /\
  (forall e w s,
     while_True ws (create_connection db) = Escaped e w s ->
     closed (snd (main ws db)) = true /\
     prices (snd (main ws db)) = prices s /\
     (e = KeyboardInterrupt ->
      fst (main ws db) = Some (Ok tt) /\
      trace (snd (main ws db))
      = (trace s ++ [Performed (logging_info ParandoExecucao) (Ok tt);
                     Performed conn_close (Ok tt)])%list) /\
     (e <> KeyboardInterrupt ->
      fst (main ws db) = Some (Exc e) /\
      trace (snd (main ws db)) = (trace s ++ [Performed conn_close (Ok tt)])%list)) /\
  (fst (main ws db) = Some (Ok tt) ->
   exists w s, while_True ws (create_connection db) = Escaped KeyboardInterrupt w s).
Proof.
  rewrite main_eq.
  destruct (while_True_any ws (create_connection db))
    as [added [evs [Hp [Hc [Ht [Hw [La Ls]]]]]]].
  destruct (while_True ws (create_connection db)) as [s | e w s];
    cbn [state_of fst snd] in *; cbn [prices closed trace create_connection app] in *.
  - split; [exists added; rewrite Hp, Ht; repeat split; assumption |].
    split; [now rewrite Ht |]. split; [intros _; exact Hc |].
    split; [discriminate |]. split; [intros s' [= <-]; reflexivity |].
    split; discriminate.
  - rewrite run_epilogue.
    assert (HKI : is_KeyboardInterrupt e = true <-> e = KeyboardInterrupt)
      by (destruct e; cbn; split; congruence).
    destruct (is_KeyboardInterrupt e) eqn:He;
      cbn [fst snd prices closed trace add_events set_closed];
      rewrite Hp, Ht, !pick_app, Hw; cbn [pick sent written app];
      rewrite !app_nil_r;
      (split; [exists added; repeat split; assumption |]);
      (split; [assumption |]); (split; [discriminate |]).
    + split; [intros o [= <-]; split; [reflexivity | now left] |].
      split; [discriminate |]. split.
      * intros e' w' s' [= <- _ <-]. split; [reflexivity |].
        split; [symmetry; exact Hp |]. split.
        -- intros _. split; [reflexivity |]. now rewrite Ht.
        -- intros Hne. exfalso. apply Hne. now apply HKI.
      * intros _. exists w, s. rewrite (proj1 HKI eq_refl). reflexivity.
    + assert (Hne : e <> KeyboardInterrupt).
      { intros E. apply HKI in E. discriminate. }
      split; [intros o [= <-]; split; [reflexivity |]; right; now exists e |].
      split; [discriminate |]. split.
      * intros e' w' s' [= <- _ <-]. split; [reflexivity |].
        split; [symmetry; exact Hp |]. split.
        -- intros E. contradiction.
        -- intros _. split; [reflexivity |]. now rewrite Ht.
      * discriminate.
Qed.

(** An interrupt during the request of the second turn, a database error
    in the first, and a loop that is still turning. *)
Lemma main_appends_and_closes_witness :
  closed (snd (@main example_runtime
                 [serving page_1000 "t1";
                  with_http (serving page_900 "t2") (Exc KeyboardInterrupt)] []))
  = true /\
  fst (@main example_runtime
         [with_storage (serving page_1000 "t1") (Exc (OtherException "OperationalError"))]
         [])
  = Some (Exc (OtherException "OperationalError")) /\
  closed (snd (@main example_runtime [serving page_1000 "t1"] [])) = false.
Proof.
  split; [| split].
  - apply (proj1 (proj2 (proj2 (proj2 (@main_appends_and_closes example_runtime
                    [serving page_1000 "t1";
                     with_http (serving page_900 "t2") (Exc KeyboardInterrupt)] []))))
             (Ok tt)).
    vm_compute. reflexivity.
  - eapply (proj1 (proj2 (proj2 (proj2 (proj2 (proj2
              (@main_appends_and_closes example_runtime
                 [with_storage (serving page_1000 "t1")
                    (Exc (OtherException "OperationalError"))] []))))))).
    + vm_compute. reflexivity.
    + discriminate.
  - apply (proj1 (proj2 (proj2 (@main_appends_and_closes example_runtime
                    [serving page_1000 "t1"] [])))).
    vm_compute. reflexivity.
Defined.

(** ** Price texts of digits and dots *)

Lemma digit_is_plain (c : ascii) :
  builtins.isdigit c = true ->
  builtins.int_isspace c = false /\ Ascii.eqb c "+" = false /\
  Ascii.eqb c "-" = false /\ Ascii.eqb c "_" = false /\ Ascii.eqb c "." = false.
Proof.
  destruct c as [[] [] [] [] [] [] [] []]; vm_compute; intros H;
    first [discriminate H | repeat split].
Qed.

Lemma scan_digits_removed (s : string) :
  digits_and_dots s = true ->
  forall digits acc,
    builtins.scan_digits false digits acc (builtins.remove "." s)
    = Some ((digits + count_digits s)%nat, digits_number acc s, EmptyString).
Proof.
  induction s as [| c s IH]; cbn [digits_and_dots builtins.remove count_digits
                                   digits_number builtins.scan_digits].
  - intros _ digits acc. now rewrite Nat.add_0_r.
  - intros H digits acc. apply andb_true_iff in H. destruct H as [Hc Hs].
    destruct (builtins.isdigit c) eqn:Hd.
    + destruct (digit_is_plain c Hd) as [_ [_ [_ [_ Hdot]]]]. rewrite Hdot.
      cbn [builtins.scan_digits]. rewrite Hd, (IH Hs). f_equal. f_equal. f_equal. lia.
    + cbn in Hc. rewrite Hc. apply (IH Hs).
Qed.

Lemma removed_head (s : string) :
  digits_and_dots s = true -> (0 < count_digits s)%nat ->
  exists c t, builtins.remove "." s = String c t /\ builtins.isdigit c = true.
Proof.
  induction s as [| c s IH]; cbn [digits_and_dots builtins.remove count_digits].
  - intros _ H. lia.
  - intros H Hn. apply andb_true_iff in H. destruct H as [Hc Hs].
    destruct (builtins.isdigit c) eqn:Hd.
    + destruct (digit_is_plain c Hd) as [_ [_ [_ [_ Hdot]]]]. rewrite Hdot.
      now exists c, (builtins.remove "." s).
    + cbn in Hc. rewrite Hc. apply (IH Hs Hn).
Qed.

Lemma removed_empty (s : string) :
  digits_and_dots s = true -> count_digits s = 0%nat ->
  builtins.remove "." s = EmptyString.
Proof.
  induction s as [| c s IH]; cbn [digits_and_dots builtins.remove count_digits].
  - reflexivity.
  - intros H Hn. apply andb_true_iff in H. destruct H as [Hc Hs].
    destruct (builtins.isdigit c); [discriminate |].
    cbn in Hc. rewrite Hc. apply (IH Hs Hn).
Qed.

Lemma digits_number_nonneg (s : string) (acc : Z) :
  0 <= acc -> 0 <= digits_number acc s.
Proof.
  revert acc. induction s as [| c s IH]; intros acc Hacc; cbn [digits_number].
  - exact Hacc.
  - destruct (builtins.isdigit c) eqn:Hd; [| now apply IH].
    apply IH. pose proof (isdigit_value c Hd). lia.
Qed.

(** X12: the price expression of [parse_page] on an element whose text is made
    of digits and dots only: with at least one digit, and no more digits
    than the interpreter's limit lets through, the price is the number
    the digits spell, the dots being dropped wherever they stand, and it
    is not negative; without a digit the text is no number. *)
Theorem price_of_digits_and_dots {R : Runtime} (e : PageElement) :
  digits_and_dots (get_text_strip e) = true ->
  ((0 < count_digits (get_text_strip e))%nat ->
   (count_digits (get_text_strip e) <= 640
    \/ int_max_str_digits = 0
    \/ count_digits (get_text_strip e) <= int_max_str_digits)%nat ->
   builtins.int int_max_str_digits (price_text e)
     = Some (digits_number 0 (get_text_strip e)) /\
   0 <= digits_number 0 (get_text_strip e)) /\
  (count_digits (get_text_strip e) = 0%nat ->
   builtins.int int_max_str_digits (price_text e) = None).
Proof.
  unfold price_text. intros Hdd. split.
  - intros Hpos Hlim. split; [| apply digits_number_nonneg; lia].
    destruct (removed_head _ Hdd Hpos) as [c [t [Et Hc]]].
    destruct (digit_is_plain c Hc) as [Hsp [Hplus [Hminus [Hus _]]]].
    unfold builtins.int. cbn zeta. rewrite Et.
    cbn [builtins.int_lstrip builtins.startswith]. rewrite Hsp.
    cbn [builtins.startswith]. rewrite Hplus, Hminus.
    unfold builtins.int_digits. cbn [builtins.startswith]. rewrite Hus.
    rewrite <- Et, (scan_digits_removed _ Hdd). cbn [Nat.add builtins.all_int_space negb].
    destruct (Nat.eqb_spec (count_digits (get_text_strip e)) 0) as [E0 | _]; [lia |].
    destruct (Nat.ltb builtins.MAX_STR_DIGITS_THRESHOLD (count_digits (get_text_strip e))
              && Nat.ltb 0 int_max_str_digits
              && Nat.ltb int_max_str_digits (count_digits (get_text_strip e))) eqn:El.
    + apply andb_true_iff in El. destruct El as [El E3].
      apply andb_true_iff in El. destruct El as [E1 E2].
      apply Nat.ltb_lt in E1, E2, E3. unfold builtins.MAX_STR_DIGITS_THRESHOLD in E1.
      lia.
    + now rewrite Z.mul_1_l.
  - intros Hz. now rewrite (removed_empty _ Hdd Hz).
Qed.

(** Dots in any place, and dots alone. *)
Lemma price_of_digits_and_dots_witness :
  builtins.int 4300 (price_text (Tag "span" [] [NavigableString " 1.2.34. "]))
  = Some 1234 /\
  builtins.int 4300 (price_text (Tag "span" [] [NavigableString "..."])) = None.
Proof.
  split.
  - apply (proj1 (@price_of_digits_and_dots example_runtime
                    (Tag "span" [] [NavigableString " 1.2.34. "]) eq_refl));
      [cbn; lia | left; cbn; lia].
  - apply (proj2 (@price_of_digits_and_dots example_runtime
                    (Tag "span" [] [NavigableString "..."]) eq_refl)).
    reflexivity.
Defined.

(** ** The error [parse_page] logs *)

(** X13: [parse_page] stops at the first thing that goes wrong, in the order
    of its statements, and logs that one error: [AttributeError] for a
    missing title, whatever the prices are; [ValueError] for the first of
    the three price elements that is no number, even when fewer than
    three are there; [IndexError] when fewer than three are there and
    those there are numbers.  It reads the clock only when all of that
    went well, once, and logs nothing then. *)
Theorem parse_page_logs_first_error
        {R : Runtime} (w : world) (html : string) (s : state) :
  let evs := new_events s (snd (run w (parse_page html) s)) in
  let found := find_all (BeautifulSoup html) "span" "andes-money-amount__fraction" in
  let numeric e := builtins.int int_max_str_digits (price_text e) <> None in
  (find (BeautifulSoup html) "h1" "ui-pdp-title" = None ->
   pick logged_error evs = [ErroAoParsear AttributeError] /\ pick clock_read evs = []) /\
  (forall i e,
     find (BeautifulSoup html) "h1" "ui-pdp-title" <> None ->
     (i < 3)%nat -> nth_error found i = Some e -> ~ numeric e ->
     (forall j e', (j < i)%nat -> nth_error found j = Some e' -> numeric e') ->
     pick logged_error evs = [ErroAoParsear ValueError] /\ pick clock_read evs = []) /\
  (find (BeautifulSoup html) "h1" "ui-pdp-title" <> None ->
   (length found < 3)%nat ->
   (forall j e', nth_error found j = Some e' -> numeric e') ->
   pick logged_error evs = [ErroAoParsear IndexError] /\ pick clock_read evs = []) /\
  (forall info,
     parsed w html = Ok (Some info) ->
     pick logged_error evs = [] /\ pick clock_read evs = ["%Y-%m-%d %H:%M:%S"]).
Proof.
  cbn zeta. rewrite parsed_eq.
  unfold parse_page, get_text_of, getitem, int_of, price_text. cbn.
  destruct (find (BeautifulSoup html) "h1" "ui-pdp-title") as [h |]; cbn.
  2: { unfold perform, record_event; cbn. rewrite new_events_add.
       repeat split; try congruence; intros; discriminate. }
  destruct (find_all (BeautifulSoup html) "span" "andes-money-amount__fraction")
    as [| e0 [| e1 [| e2 rest]]]; cbn;
    repeat match goal with
           | |- context [builtins.int ?n ?t] =>
               let E := fresh "E" in destruct (builtins.int n t) eqn:E; cbn
           end;
    unfold perform, record_event; cbn; tidy_trace;
    (split; [intros; discriminate |]);
    (split; [| split]);
    try (intros; discriminate);
    try (intros; cbn in *; lia).
  all: try (intros i e _ Hi Hnth Hnum Hprev;
            destruct i as [| [| [| i]]]; try lia; cbn in Hnth;
            try discriminate Hnth; injection Hnth as <-;
            first [ split; reflexivity
                  | exfalso; apply Hnum; congruence
                  | exfalso;
                    first [ apply (Hprev 0%nat e0); [lia | reflexivity | assumption]
                          | apply (Hprev 1%nat e1); [lia | reflexivity | assumption] ] ]).
  all: try (intros _ _ Hall; first [ split; reflexivity
            | exfalso;
              first [ apply (Hall 0%nat e0); [reflexivity | assumption]
                    | apply (Hall 1%nat e1); [reflexivity | assumption] ] ]).
  all: try (intros info _; split; reflexivity).
Qed.

(** One price element that is no number, two that are, and no title. *)
Lemma parse_page_logs_first_error_witness :
  pick logged_error
    (new_events fresh
       (snd (run (serving page_one_bad_price "t")
               (@parse_page small_pages_runtime (document_html page_one_bad_price))
               fresh)))
  = [ErroAoParsear ValueError] /\
  pick logged_error
    (new_events fresh
       (snd (run (serving page_two_prices "t")
               (@parse_page small_pages_runtime (document_html page_two_prices))
               fresh)))
  = [ErroAoParsear IndexError] /\
  pick logged_error
    (new_events fresh
       (snd (run (serving page_untitled "t")
               (@parse_page small_pages_runtime (document_html page_untitled))
               fresh)))
  = [ErroAoParsear AttributeError].
Proof.
  split; [| split].
  - apply (proj1 (proj2 (@parse_page_logs_first_error small_pages_runtime
                           (serving page_one_bad_price "t")
                           (document_html page_one_bad_price) fresh))
             0%nat (Tag "span" ["andes-money-amount__fraction"] [NavigableString "R$"])).
    + discriminate.
    + lia.
    + reflexivity.
    + intros H. apply H. reflexivity.
    + intros j e' Hj. lia.
  - apply (proj1 (proj2 (proj2 (@parse_page_logs_first_error small_pages_runtime
                           (serving page_two_prices "t")
                           (document_html page_two_prices) fresh)))).
    + discriminate.
    + vm_compute. lia.
    + intros [| [| [| j]]] e' Hnth; vm_compute in Hnth; try discriminate Hnth;
        injection Hnth as <-; discriminate.
  - apply (proj1 (@parse_page_logs_first_error small_pages_runtime
                    (serving page_untitled "t")
                    (document_html page_untitled) fresh)).
    reflexivity.
Defined.
